(** * The verbose reporter of AVA (lib/reporters/verbose.js)

    A shallow embedding of [VerboseReporter]: the reporter object is a
    record, its methods are computations in a small state-and-exception
    monad that also collects the effects performed on the two external
    objects the reporter talks to, the output stream and the run status
    emitter.  The collaborators that live outside the file (colours,
    figures, indentation, path rendering, ...) are gathered in one record
    of helper functions over which the whole development is parametric. *)

From Stdlib Require Import String Ascii NArith List Bool Lia DecimalString.
From stdpp Require Import gmap strings.

Local Open Scope N_scope.

(** ** JavaScript values used by the reporter *)

(** A string is falsy exactly when it is empty. *)
Definition truthy (s : string) : bool := negb (String.eqb s "").

(** [`${n}`] for a non-negative integer. *)
Definition num_to_string (n : N) : string :=
  NilZero.string_of_uint (N.to_uint n).

(** [s.startsWith(p)] *)
Fixpoint startsWith (p s : string) : bool :=
  match p, s with
  | EmptyString, _ => true
  | String a p', String b s' => Ascii.eqb a b && startsWith p' s'
  | String _ _, EmptyString => false
  end.

(** [s.includes(sub)] *)
Fixpoint includes (sub s : string) : bool :=
  startsWith sub s ||
  match s with
  | EmptyString => false
  | String _ s' => includes sub s'
  end.

(** [ch.repeat(n)] *)
Fixpoint repeat_string (ch : string) (n : nat) : string :=
  match n with
  | O => ""
  | S n' => ch +:+ repeat_string ch n'
  end.

Definition newline : string := String "010"%char "".

(** [str.replace(/^ {6}/, by)]: only a leading run of six spaces is replaced. *)
Definition replace_leading_six_spaces (str by_ : string) : string :=
  if startsWith "      " str then by_ +:+ String.substring 6 (String.length str - 6) str
  else str.

(** ** Events *)

Record Source := {
  source_file : string;
  source_line : N
}.

(** A serialized error, [evt.err].  Optional members that the reporter only
    tests for truthiness are strings (absent = empty) or booleans. *)
Record SerializedError := {
  summary : string;
  stack : string;
  message : string;
  source : option Source;
  avaAssertionError : bool;
  nonErrorObject : bool;
  formatted : string
}.

Record FileStats := {
  file_declaredTests : N;
  file_remainingTests : N
}.

(** The [stats] snapshot; [byFile] is a JavaScript [Map] keyed by test file. *)
Record Stats := {
  byFile : gmap string FileStats;
  declaredTests : N;
  failedHooks : N;
  failedTests : N;
  passedTests : N;
  passedKnownFailingTests : N;
  skippedTests : N;
  todoTests : N;
  unhandledRejections : N;
  uncaughtExceptions : N;
  remainingTests : N;
  selectedTests : N;
  files : N;
  finishedWorkers : N
}.

(** A state-change event is one JavaScript object; every member that some
    branch of the reporter reads is a field.  [obj_id] is the identity of
    the object (what [===] on objects compares).  Members the code
    dereferences or hands to [path.relative] are options: [None] is
    [undefined]. *)
Record Event := {
  obj_id : nat;
  type : string;
  testFile : option string;
  title : string;
  err : option SerializedError;
  skip : bool;
  todo : bool;
  evt_stats : option Stats;
  knownFailing : bool;
  period : N;
  nonZeroExitCode : N;
  signal : string;
  forcedExit : bool;
  chunk : string;
  logs : option (list string);
  duration : N
}.

(** [a !== b] for an event object [a] and [b] an element read from an
    array of events: [None] is the [undefined] of an empty array. *)
Definition not_same_object (a : Event) (b : option Event) : bool :=
  match b with
  | Some b => negb (Nat.eqb (obj_id a) (obj_id b))
  | None => true
  end.

(** The plan handed to [startRun]; [plan_status] names the status emitter. *)
Record Plan := {
  plan_failFastEnabled : bool;
  plan_matching : bool;
  plan_previousFailures : N;
  plan_files : list string;
  plan_filePathPrefix : string;
  plan_status : nat;
  plan_runVector : N
}.

(** ** External collaborators *)

Record FormattedError := {
  printMessage : bool;
  formatted_diff : string
}.

(** Everything [verbose.js] requires from other modules.  Results that the
    reporter only tests for truthiness are strings, empty when falsy. *)
Record Helpers := {
  figures_cross : string;
  figures_tick : string;
  figures_info : string;
  colors_error : string -> string;
  colors_errorSource : string -> string;
  colors_errorStack : string -> string;
  colors_stack : string -> string;
  colors_skip : string -> string;
  colors_todo : string -> string;
  colors_title : string -> string;
  colors_pass : string -> string;
  colors_duration : string -> string;
  colors_log : string -> string;
  colors_information : string -> string;
  chalk_gray_dim : string -> string;
  indentString : string -> N -> string;
  prettyMs : N -> string;
  (** [plur(word, count)] *)
  plur : string -> N -> string;
  (** [plur(word, plural, count)] *)
  plur_with : string -> string -> N -> string;
  trimOffNewlines : string -> string;
  (** [path.relative('.', file)] on a string *)
  path_relative_cwd : string -> string;
  (** [codeExcerpt(source, {maxWidth})] *)
  codeExcerpt : Source -> option N -> string;
  formatSerializedError : SerializedError -> FormattedError;
  improperUsageMessages_forError : SerializedError -> string;
  (** the module [./prefix-title] *)
  prefixTitle_module : string -> option string -> string -> string;
  (** [new Date().toLocaleTimeString('en-US', {hour12: false})] *)
  toLocaleTimeString_now : string
}.

(** ** The reporter object and its effects *)

Record Reporter := {
  stream_columns : option N;
  watching : bool;
  failFastEnabled : bool;
  failures : list Event;
  filesWithMissingAvaImports : gset (option string);
  knownFailures : list Event;
  lastLineIsEmpty : bool;
  matching : bool;
  prefixTitle : option string -> string -> string;
  previousFailures : N;
  removePreviousListener : option nat;
  stats : option Stats
}.

(** What the reporter does to the outside world. *)
Inductive Effect :=
| Write (chunk : string)
| Cork
| Uncork
| Subscribe (status : nat)
| Unsubscribe (status : nat).

Inductive JsError :=
| TypeError (what : string).

Inductive Completion (A : Type) :=
| Normal (a : A)
| Throw (e : JsError).
Arguments Normal {A} a.
Arguments Throw {A} e.

(** A method body: from the object before the call to the completion, the
    object after the call and the effects performed, in order. *)
Definition Js (A : Type) : Type :=
  Reporter -> Completion A * Reporter * list Effect.

Definition js_ret {A} (a : A) : Js A := fun st => (Normal a, st, []).

Definition js_bind {A B} (m : Js A) (k : A -> Js B) : Js B :=
  fun st =>
    match m st with
    | (Normal a, st1, tr1) =>
        match k a st1 with
        | (r, st2, tr2) => (r, st2, tr1 ++ tr2)
        end
    | (Throw e, st1, tr1) => (Throw e, st1, tr1)
    end.

#[global] Instance Js_ret : MRet Js := @js_ret.
#[global] Instance Js_bind : MBind Js := fun A B k m => js_bind m k.

Definition get : Js Reporter := fun st => (Normal st, st, []).
Definition modify (f : Reporter -> Reporter) : Js unit :=
  fun st => (Normal tt, f st, []).
Definition perform (e : Effect) : Js unit := fun st => (Normal tt, st, [e]).
Definition throw {A} (e : JsError) : Js A := fun st => (Throw e, st, []).

(** [try { body } finally { cleanup }] *)
Definition try_finally (body cleanup : Js unit) : Js unit :=
  fun st =>
    match body st with
    | (r, st1, tr1) =>
        match cleanup st1 with
        | (Normal _, st2, tr2) => (r, st2, tr1 ++ tr2)
        | (Throw e, st2, tr2) => (Throw e, st2, tr1 ++ tr2)
        end
    end.

Definition completion {A} (m : Js A) (st : Reporter) : Completion A := (m st).1.1.
Definition exec {A} (m : Js A) (st : Reporter) : Reporter := (m st).1.2.
Definition effects {A} (m : Js A) (st : Reporter) : list Effect := (m st).2.

(** The chunks handed to [stream.write], in order. *)
Fixpoint written_chunks (tr : list Effect) : list string :=
  match tr with
  | [] => []
  | Write c :: tr' => c :: written_chunks tr'
  | _ :: tr' => written_chunks tr'
  end.

Definition written {A} (m : Js A) (st : Reporter) : list string :=
  written_chunks (effects m st).

(** Field updates of the reporter object. *)
Definition set_failFastEnabled (b : bool) (r : Reporter) : Reporter :=
  {| stream_columns := stream_columns r; watching := watching r;
     failFastEnabled := b; failures := failures r;
     filesWithMissingAvaImports := filesWithMissingAvaImports r;
     knownFailures := knownFailures r; lastLineIsEmpty := lastLineIsEmpty r;
     matching := matching r; prefixTitle := prefixTitle r;
     previousFailures := previousFailures r;
     removePreviousListener := removePreviousListener r; stats := stats r |}.

Definition set_failures (l : list Event) (r : Reporter) : Reporter :=
  {| stream_columns := stream_columns r; watching := watching r;
     failFastEnabled := failFastEnabled r; failures := l;
     filesWithMissingAvaImports := filesWithMissingAvaImports r;
     knownFailures := knownFailures r; lastLineIsEmpty := lastLineIsEmpty r;
     matching := matching r; prefixTitle := prefixTitle r;
     previousFailures := previousFailures r;
     removePreviousListener := removePreviousListener r; stats := stats r |}.

Definition set_filesWithMissingAvaImports (s : gset (option string)) (r : Reporter) : Reporter :=
  {| stream_columns := stream_columns r; watching := watching r;
     failFastEnabled := failFastEnabled r; failures := failures r;
     filesWithMissingAvaImports := s;
     knownFailures := knownFailures r; lastLineIsEmpty := lastLineIsEmpty r;
     matching := matching r; prefixTitle := prefixTitle r;
     previousFailures := previousFailures r;
     removePreviousListener := removePreviousListener r; stats := stats r |}.

Definition set_knownFailures (l : list Event) (r : Reporter) : Reporter :=
  {| stream_columns := stream_columns r; watching := watching r;
     failFastEnabled := failFastEnabled r; failures := failures r;
     filesWithMissingAvaImports := filesWithMissingAvaImports r;
     knownFailures := l; lastLineIsEmpty := lastLineIsEmpty r;
     matching := matching r; prefixTitle := prefixTitle r;
     previousFailures := previousFailures r;
     removePreviousListener := removePreviousListener r; stats := stats r |}.

Definition set_lastLineIsEmpty (b : bool) (r : Reporter) : Reporter :=
  {| stream_columns := stream_columns r; watching := watching r;
     failFastEnabled := failFastEnabled r; failures := failures r;
     filesWithMissingAvaImports := filesWithMissingAvaImports r;
     knownFailures := knownFailures r; lastLineIsEmpty := b;
     matching := matching r; prefixTitle := prefixTitle r;
     previousFailures := previousFailures r;
     removePreviousListener := removePreviousListener r; stats := stats r |}.

Definition set_matching (b : bool) (r : Reporter) : Reporter :=
  {| stream_columns := stream_columns r; watching := watching r;
     failFastEnabled := failFastEnabled r; failures := failures r;
     filesWithMissingAvaImports := filesWithMissingAvaImports r;
     knownFailures := knownFailures r; lastLineIsEmpty := lastLineIsEmpty r;
     matching := b; prefixTitle := prefixTitle r;
     previousFailures := previousFailures r;
     removePreviousListener := removePreviousListener r; stats := stats r |}.

Definition set_prefixTitle (f : option string -> string -> string) (r : Reporter) : Reporter :=
  {| stream_columns := stream_columns r; watching := watching r;
     failFastEnabled := failFastEnabled r; failures := failures r;
     filesWithMissingAvaImports := filesWithMissingAvaImports r;
     knownFailures := knownFailures r; lastLineIsEmpty := lastLineIsEmpty r;
     matching := matching r; prefixTitle := f;
     previousFailures := previousFailures r;
     removePreviousListener := removePreviousListener r; stats := stats r |}.

Definition set_previousFailures (n : N) (r : Reporter) : Reporter :=
  {| stream_columns := stream_columns r; watching := watching r;
     failFastEnabled := failFastEnabled r; failures := failures r;
     filesWithMissingAvaImports := filesWithMissingAvaImports r;
     knownFailures := knownFailures r; lastLineIsEmpty := lastLineIsEmpty r;
     matching := matching r; prefixTitle := prefixTitle r;
     previousFailures := n;
     removePreviousListener := removePreviousListener r; stats := stats r |}.

Definition set_removePreviousListener (l : option nat) (r : Reporter) : Reporter :=
  {| stream_columns := stream_columns r; watching := watching r;
     failFastEnabled := failFastEnabled r; failures := failures r;
     filesWithMissingAvaImports := filesWithMissingAvaImports r;
     knownFailures := knownFailures r; lastLineIsEmpty := lastLineIsEmpty r;
     matching := matching r; prefixTitle := prefixTitle r;
     previousFailures := previousFailures r;
     removePreviousListener := l; stats := stats r |}.

Definition set_stats (s : option Stats) (r : Reporter) : Reporter :=
  {| stream_columns := stream_columns r; watching := watching r;
     failFastEnabled := failFastEnabled r; failures := failures r;
     filesWithMissingAvaImports := filesWithMissingAvaImports r;
     knownFailures := knownFailures r; lastLineIsEmpty := lastLineIsEmpty r;
     matching := matching r; prefixTitle := prefixTitle r;
     previousFailures := previousFailures r;
     removePreviousListener := removePreviousListener r; stats := s |}.

(** ** The methods of [VerboseReporter] *)

Section VerboseReporter.

Variable H : Helpers.

Definition stream_write (chunk : string) : Js unit := perform (Write chunk).

(** [whileCorked(stream, fn)]: the stream is uncorked on every exit path. *)
Definition whileCorked (fn : Js unit) : Js unit :=
  perform Cork ;; try_finally fn (perform Uncork).

Definition reset : Js unit :=
  this ← get;
  match removePreviousListener this with
  | Some unsubscribe => perform (Unsubscribe unsubscribe)
  | None => mret tt
  end ;;
  modify (set_failFastEnabled false) ;;
  modify (set_failures []) ;;
  modify (set_filesWithMissingAvaImports ∅) ;;
  modify (set_knownFailures []) ;;
  modify (set_lastLineIsEmpty false) ;;
  modify (set_matching false) ;;
  modify (set_prefixTitle (fun testFile title => title)) ;;
  modify (set_previousFailures 0) ;;
  modify (set_removePreviousListener None) ;;
  modify (set_stats None).

(** The object as the constructor finds it before it calls [reset]: only
    [stream] and [watching] are set, every other member is [undefined]. *)
Definition allocated (columns : option N) (watch : bool) : Reporter :=
  {| stream_columns := columns; watching := watch;
     failFastEnabled := false; failures := [];
     filesWithMissingAvaImports := ∅; knownFailures := [];
     lastLineIsEmpty := false; matching := false;
     prefixTitle := fun testFile title => title; previousFailures := 0;
     removePreviousListener := None; stats := None |}.

(** [new VerboseReporter({stream, watching})] *)
Definition constructor (columns : option N) (watch : bool) : Reporter :=
  exec reset (allocated columns watch).

Definition writeLine (str : string) : Js unit :=
  stream_write (str +:+ newline) ;;
  modify (set_lastLineIsEmpty (String.eqb str "")).

Definition ensureEmptyLine : Js unit :=
  this ← get;
  if negb (lastLineIsEmpty this) then writeLine "" else mret tt.

(** [this.stream.columns || 80] *)
Definition columns_or_80 (this : Reporter) : N :=
  match stream_columns this with
  | Some c => if c =? 0 then 80 else c
  | None => 80
  end.

Definition startRun (plan : Plan) : Js unit :=
  reset ;;
  modify (set_failFastEnabled (plan_failFastEnabled plan)) ;;
  modify (set_matching (plan_matching plan)) ;;
  modify (set_previousFailures (plan_previousFailures plan)) ;;
  this ← get;
  (if watching this || (1 <? length (plan_files plan))%nat
   then modify (set_prefixTitle
                  (fun testFile title =>
                     prefixTitle_module H (plan_filePathPrefix plan) testFile title))
   else mret tt) ;;
  perform (Subscribe (plan_status plan)) ;;
  modify (set_removePreviousListener (Some (plan_status plan))) ;;
  (if watching this && (1 <? plan_runVector plan)
   then writeLine (chalk_gray_dim H
                     (repeat_string "─" (N.to_nat (columns_or_80 this))))
   else mret tt) ;;
  writeLine "".

(** [path.relative('.', to)]; Node throws a [TypeError] when [to] is not a
    string. *)
Definition path_relative (to : option string) : Js string :=
  match to with
  | Some file => mret (path_relative_cwd H file)
  | None => throw (TypeError "ERR_INVALID_ARG_TYPE")
  end.

(** Reading a member of [evt.err] throws when [evt.err] is [undefined]. *)
Definition err_of (evt : Event) : Js SerializedError :=
  match err evt with
  | Some e => mret e
  | None => throw (TypeError "Cannot read property of undefined")
  end.

(** Reading a member of [fileStats] throws when it is [null] or [undefined]. *)
Definition member_of {A} (o : option A) : Js A :=
  match o with
  | Some a => mret a
  | None => throw (TypeError "Cannot read property of null")
  end.

Definition writeErr (evt : Event) : Js unit :=
  this ← get;
  e ← err_of evt;
  match source e with
  | Some src =>
      writeLine ("  " +:+ colors_errorSource H
                   (source_file src +:+ ":" +:+ num_to_string (source_line src))) ;;
      let excerpt := codeExcerpt H src (stream_columns this) in
      if truthy excerpt
      then writeLine "" ;; writeLine (indentString H excerpt 2)
      else mret tt
  | None => mret tt
  end ;;
  (if avaAssertionError e then
     let result := formatSerializedError H e in
     (if printMessage result
      then writeLine "" ;; writeLine (indentString H (message e) 2)
      else mret tt) ;;
     (if truthy (formatted_diff result)
      then writeLine "" ;; writeLine (indentString H (formatted_diff result) 2)
      else mret tt) ;;
     let message := improperUsageMessages_forError H e in
     if truthy message
     then writeLine "" ;; writeLine (indentString H message 2)
     else mret tt
   else if nonErrorObject e then
     writeLine (indentString H (trimOffNewlines H (formatted e)) 2)
   else
     writeLine "" ;; writeLine (indentString H (message e) 2)) ;;
  if truthy (stack e) then
    let stack := stack e in
    if includes newline stack
    then writeLine "" ;; writeLine (indentString H (colors_errorStack H stack) 2)
    else mret tt
  else mret tt.

Fixpoint writeLogs_loop (logs : list string) : Js unit :=
  match logs with
  | [] => mret tt
  | log :: rest =>
      let logLines := indentString H (colors_log H log) 6 in
      let logLinesWithLeadingFigure :=
        replace_leading_six_spaces logLines
          ("    " +:+ colors_information H (figures_info H) +:+ " ") in
      writeLine logLinesWithLeadingFigure ;;
      writeLogs_loop rest
  end.

Definition writeLogs (evt : Event) : Js unit :=
  match logs evt with
  | Some logs => writeLogs_loop logs
  | None => mret tt
  end.

Definition writeTestSummary (evt : Event) : Js unit :=
  this ← get;
  (if String.eqb (type evt) "hook-failed" || String.eqb (type evt) "test-failed" then
     e ← err_of evt;
     writeLine ("  " +:+ colors_error H (figures_cross H) +:+ " "
                +:+ prefixTitle this (testFile evt) (title evt) +:+ " "
                +:+ colors_error H (message e))
   else if knownFailing evt then
     writeLine ("  " +:+ colors_error H (figures_tick H) +:+ " "
                +:+ colors_error H (prefixTitle this (testFile evt) (title evt)))
   else
     let threshold := 100 in
     let duration :=
       if threshold <? duration evt
       then colors_duration H (" (" +:+ prettyMs H (duration evt) +:+ ")")
       else "" in
     writeLine ("  " +:+ colors_pass H (figures_tick H) +:+ " "
                +:+ prefixTitle this (testFile evt) (title evt) +:+ duration)) ;;
  writeLogs evt.

Definition writeFailure (evt : Event) : Js unit :=
  this ← get;
  writeLine ("  " +:+ colors_title H (prefixTitle this (testFile evt) (title evt))) ;;
  writeLogs evt ;;
  writeLine "" ;;
  writeErr evt.

(** [this.stats && evt.testFile ? this.stats.byFile.get(evt.testFile) : null] *)
Definition fileStats_of (this : Reporter) (evt : Event) : option FileStats :=
  match stats this, testFile evt with
  | Some s, Some file => if truthy file then byFile s !! file else None
  | _, _ => None
  end.

Definition has_missing_import (this : Reporter) (evt : Event) : bool :=
  bool_decide (testFile evt ∈ filesWithMissingAvaImports this).

Definition consumeStateChange (evt : Event) : Js unit :=
  this ← get;
  let fileStats := fileStats_of this evt in
  if String.eqb (type evt) "declared-test" then
    mret tt
  else if String.eqb (type evt) "hook-failed" then
    modify (set_failures (failures this ++ [evt])) ;;
    writeTestSummary evt
  else if String.eqb (type evt) "internal-error" then
    (match testFile evt with
     | Some file =>
         if truthy file
         then writeLine (colors_error H ("  " +:+ figures_cross H
                           +:+ " Internal error when running "
                           +:+ path_relative_cwd H file))
         else writeLine (colors_error H ("  " +:+ figures_cross H +:+ " Internal error"))
     | None => writeLine (colors_error H ("  " +:+ figures_cross H +:+ " Internal error"))
     end) ;;
    e ← err_of evt;
    writeLine (indentString H (colors_stack H (summary e)) 2) ;;
    writeLine (indentString H (colors_errorStack H (stack e)) 2) ;;
    writeLine (newline +:+ newline)
  else if String.eqb (type evt) "missing-ava-import" then
    modify (set_filesWithMissingAvaImports
              ({[ testFile evt ]} ∪ filesWithMissingAvaImports this)) ;;
    rel ← path_relative (testFile evt);
    writeLine (colors_error H ("  " +:+ figures_cross H +:+ " No tests found in " +:+ rel
                 +:+ ", make sure to import " +:+ String "034"%char "ava"
                 +:+ String "034"%char " at the top of your test file"))
  else if String.eqb (type evt) "selected-test" then
    if skip evt then
      writeLine ("  " +:+ colors_skip H ("- " +:+ prefixTitle this (testFile evt) (title evt)))
    else if todo evt then
      writeLine ("  " +:+ colors_todo H ("- " +:+ prefixTitle this (testFile evt) (title evt)))
    else mret tt
  else if String.eqb (type evt) "stats" then
    modify (set_stats (evt_stats evt))
  else if String.eqb (type evt) "test-failed" then
    modify (set_failures (failures this ++ [evt])) ;;
    writeTestSummary evt
  else if String.eqb (type evt) "test-passed" then
    (if knownFailing evt
     then modify (set_knownFailures (knownFailures this ++ [evt]))
     else mret tt) ;;
    writeTestSummary evt
  else if String.eqb (type evt) "timeout" then
    writeLine (colors_error H ("  " +:+ figures_cross H
                 +:+ " Exited because no new tests completed within the last "
                 +:+ num_to_string (period evt) +:+ "ms of inactivity"))
  else if String.eqb (type evt) "uncaught-exception" then
    ensureEmptyLine ;;
    rel ← path_relative (testFile evt);
    writeLine ("  " +:+ colors_title H ("Uncaught exception in " +:+ rel)) ;;
    writeLine "" ;;
    writeErr evt ;;
    writeLine ""
  else if String.eqb (type evt) "unhandled-rejection" then
    ensureEmptyLine ;;
    rel ← path_relative (testFile evt);
    writeLine ("  " +:+ colors_title H ("Unhandled rejection in " +:+ rel)) ;;
    writeLine "" ;;
    writeErr evt ;;
    writeLine ""
  else if String.eqb (type evt) "worker-failed" then
    if negb (has_missing_import this evt) then
      if negb (nonZeroExitCode evt =? 0) then
        rel ← path_relative (testFile evt);
        writeLine (colors_error H ("  " +:+ figures_cross H +:+ " " +:+ rel
                     +:+ " exited with a non-zero exit code: "
                     +:+ num_to_string (nonZeroExitCode evt)))
      else
        rel ← path_relative (testFile evt);
        writeLine (colors_error H ("  " +:+ figures_cross H +:+ " " +:+ rel
                     +:+ " exited due to " +:+ signal evt))
    else mret tt
  else if String.eqb (type evt) "worker-finished" then
    if negb (forcedExit evt) && negb (has_missing_import this evt) then
      stats_of_file ← member_of fileStats;
      if file_declaredTests stats_of_file =? 0 then
        rel ← path_relative (testFile evt);
        writeLine (colors_error H ("  " +:+ figures_cross H +:+ " No tests found in " +:+ rel))
      else if negb (failFastEnabled this) && (0 <? file_remainingTests stats_of_file) then
        rel ← path_relative (testFile evt);
        writeLine (colors_error H ("  " +:+ figures_cross H +:+ " "
                     +:+ num_to_string (file_remainingTests stats_of_file) +:+ " "
                     +:+ plur H "test" (file_remainingTests stats_of_file)
                     +:+ " remaining in " +:+ rel))
      else mret tt
    else mret tt
  else if String.eqb (type evt) "worker-stderr" || String.eqb (type evt) "worker-stdout" then
    stream_write (chunk evt)
  else
    mret tt.

(** [shouldWriteFailFastDisclaimer] of [endRun] *)
Definition shouldWriteFailFastDisclaimer (this : Reporter) (s : Stats) : bool :=
  failFastEnabled this && ((0 <? remainingTests s) || (finishedWorkers s <? files s)).

(** The local [remaining] of [endRun], as it stands when the disclaimer is
    written. *)
Definition disclaimer_remaining (s : Stats) : string :=
  let remaining := "" in
  let remaining :=
    if 0 <? remainingTests s then
      let remaining :=
        remaining +:+ "At least " +:+ num_to_string (remainingTests s) +:+ " "
        +:+ plur_with H "test was" "tests were" (remainingTests s) +:+ " skipped" in
      if finishedWorkers s <? files s then remaining +:+ ", as well as " else remaining
    else remaining in
  let remaining :=
    if finishedWorkers s <? files s then
      let skippedFileCount := files s - finishedWorkers s in
      let remaining :=
        remaining +:+ num_to_string skippedFileCount +:+ " "
        +:+ plur_with H "test file" "test files" skippedFileCount in
      if remainingTests s =? 0
      then remaining +:+ " " +:+ plur_with H "was" "were" skippedFileCount +:+ " skipped"
      else remaining
    else remaining in
  remaining.

(** The [for (const evt of this.failures)] loop of [endRun]. *)
Fixpoint endRun_failures_loop (lastFailure : option Event) (disclaimer : bool)
    (todo_ : list Event) : Js unit :=
  match todo_ with
  | [] => mret tt
  | evt :: rest =>
      writeFailure evt ;;
      (if not_same_object evt lastFailure || disclaimer
       then writeLine "" ;; writeLine "" ;; writeLine ""
       else mret tt) ;;
      endRun_failures_loop lastFailure disclaimer rest
  end.

(** The [for (const evt of this.knownFailures)] loop of [endRun]. *)
Fixpoint endRun_knownFailures_loop (this : Reporter) (todo_ : list Event) : Js unit :=
  match todo_ with
  | [] => mret tt
  | evt :: rest =>
      writeLine ("  " +:+ colors_error H (prefixTitle this (testFile evt) (title evt))) ;;
      endRun_knownFailures_loop this rest
  end.

Definition endRun : Js unit :=
  this ← get;
  match stats this with
  | None =>
      writeLine (colors_error H ("  " +:+ figures_cross H
                   +:+ " Couldn't find any files to test")) ;;
      writeLine ""
  | Some s =>
      if matching this && (selectedTests s =? 0) then
        writeLine (colors_error H ("  " +:+ figures_cross H
                     +:+ " Couldn't find any matching tests")) ;;
        writeLine ""
      else
        writeLine "" ;;
        let firstLinePostfix :=
          if watching this
          then " " +:+ chalk_gray_dim H ("[" +:+ toLocaleTimeString_now H +:+ "]")
          else "" in
        (if 0 <? failedHooks s
         then writeLine ("  " +:+ colors_error H
                           (num_to_string (failedHooks s) +:+ " "
                            +:+ plur H "hook" (failedHooks s) +:+ " failed")
                         +:+ firstLinePostfix)
         else mret tt) ;;
        let firstLinePostfix := if 0 <? failedHooks s then "" else firstLinePostfix in
        (if 0 <? failedTests s
         then writeLine ("  " +:+ colors_error H
                           (num_to_string (failedTests s) +:+ " "
                            +:+ plur H "test" (failedTests s) +:+ " failed")
                         +:+ firstLinePostfix)
         else mret tt) ;;
        let firstLinePostfix := if 0 <? failedTests s then "" else firstLinePostfix in
        (if (failedHooks s =? 0) && (failedTests s =? 0) && (0 <? passedTests s)
         then writeLine ("  " +:+ colors_pass H
                           (num_to_string (passedTests s) +:+ " "
                            +:+ plur H "test" (passedTests s) +:+ " passed")
                         +:+ firstLinePostfix)
         else mret tt) ;;
        (if 0 <? passedKnownFailingTests s
         then writeLine ("  " +:+ colors_error H
                           (num_to_string (passedKnownFailingTests s) +:+ " "
                            +:+ plur H "known failure" (passedKnownFailingTests s)))
         else mret tt) ;;
        (if 0 <? skippedTests s
         then writeLine ("  " +:+ colors_skip H
                           (num_to_string (skippedTests s) +:+ " "
                            +:+ plur H "test" (skippedTests s) +:+ " skipped"))
         else mret tt) ;;
        (if 0 <? todoTests s
         then writeLine ("  " +:+ colors_todo H
                           (num_to_string (todoTests s) +:+ " "
                            +:+ plur H "test" (todoTests s) +:+ " todo"))
         else mret tt) ;;
        (if 0 <? unhandledRejections s
         then writeLine ("  " +:+ colors_error H
                           (num_to_string (unhandledRejections s) +:+ " unhandled "
                            +:+ plur H "rejection" (unhandledRejections s)))
         else mret tt) ;;
        (if 0 <? uncaughtExceptions s
         then writeLine ("  " +:+ colors_error H
                           (num_to_string (uncaughtExceptions s) +:+ " uncaught "
                            +:+ plur H "exception" (uncaughtExceptions s)))
         else mret tt) ;;
        (if 0 <? previousFailures this
         then writeLine ("  " +:+ colors_error H
                           (num_to_string (previousFailures this) +:+ " previous "
                            +:+ plur H "failure" (previousFailures this)
                            +:+ " in test files that were not rerun"))
         else mret tt) ;;
        (if 0 <? passedKnownFailingTests s
         then writeLine "" ;; endRun_knownFailures_loop this (knownFailures this)
         else mret tt) ;;
        let disclaimer := shouldWriteFailFastDisclaimer this s in
        (if (0 <? length (failures this))%nat then
           writeLine "" ;;
           let lastFailure := last (failures this) in
           endRun_failures_loop lastFailure disclaimer (failures this)
         else mret tt) ;;
        (if disclaimer
         then writeLine ("  " +:+ colors_information H
                           ("`--fail-fast` is on. " +:+ disclaimer_remaining s +:+ "."))
         else mret tt) ;;
        writeLine ""
  end.

(** The constructor rebinds the two entry points to their corked versions. *)
Definition this_consumeStateChange (evt : Event) : Js unit :=
  whileCorked (consumeStateChange evt).

Definition this_endRun : Js unit := whileCorked endRun.

(** The status emitter delivers the events of a run one at a time to the
    listener [evt => this.consumeStateChange(evt)]; the object keeps what a
    delivery did to it even when that delivery threw. *)
Definition deliver (evts : list Event) (this : Reporter) : Reporter :=
  fold_left (fun this evt => exec (this_consumeStateChange evt) this) evts this.

End VerboseReporter.

(** ** Describing what a call did *)

(** The chunk [writeLine(str)] hands to the stream. *)
Definition line (str : string) : string := str +:+ newline.

(** The object after a run of [writeLine] calls: only the blank-line flag
    moved, to whether the last line written was empty. *)
Definition after_lines (ls : list string) (this : Reporter) : Reporter :=
  match last ls with
  | Some l => set_lastLineIsEmpty (String.eqb l "") this
  | None => this
  end.

(** [m] returns normally, having written exactly the lines [ls] through
    [writeLine] and done nothing else. *)
Definition emits (m : Js unit) (this : Reporter) (ls : list string) : Prop :=
  m this = (Normal tt, after_lines ls this, map (fun l => Write (line l)) ls).

(** Whatever way [m] completes, it leaves every member of the object but
    the blank-line flag as it was. *)
Definition flag_only {A} (m : Js A) : Prop :=
  forall this, exists b, exec m this = set_lastLineIsEmpty b this.

Definition returns_normally (m : Js unit) (this : Reporter) : Prop :=
  completion m this = Normal tt.


(** The whole text on the stream: the chunks in the order written. *)
Definition stream_text (chunks : list string) : string :=
  fold_right String.append "" chunks.

(** How many newline characters end a text. *)
Fixpoint trailing_newlines (s : string) : nat :=
  match s with
  | EmptyString => 0%nat
  | String c s' =>
      let n := trailing_newlines s' in
      if Ascii.eqb c "010"%char && Nat.eqb n (String.length s') then S n else n
  end.

(** The blank lines at the end of a text: the first of the newline
    characters that end it terminates the last line that is not blank. *)
Definition trailing_blank_lines (s : string) : nat :=
  Nat.pred (trailing_newlines s).

Section Layout.

Variable H : Helpers.

Definition is_failure_event (evt : Event) : bool :=
  String.eqb (type evt) "hook-failed" || String.eqb (type evt) "test-failed".

Definition is_known_failure_event (evt : Event) : bool :=
  String.eqb (type evt) "test-passed" && knownFailing evt.

Definition has_err (evt : Event) : Prop := err evt <> None.


(** What an event leaves in the members of the object, blank-line flag
    apart. *)
Definition record_event (evt : Event) (this : Reporter) : Reporter :=
  if is_failure_event evt then set_failures (failures this ++ [evt]) this
  else if String.eqb (type evt) "missing-ava-import" then
    set_filesWithMissingAvaImports ({[ testFile evt ]} ∪ filesWithMissingAvaImports this) this
  else if String.eqb (type evt) "stats" then set_stats (evt_stats evt) this
  else if is_known_failure_event evt then
    set_knownFailures (knownFailures this ++ [evt]) this
  else this.

(** The lines of [writeLogs]. *)
Definition logLines (evt : Event) : list string :=
  match logs evt with
  | Some logs =>
      map (fun log =>
             replace_leading_six_spaces (indentString H (colors_log H log) 6)
               ("    " +:+ colors_information H (figures_info H) +:+ " "))
          logs
  | None => []
  end.

(** The lines of [writeErr], the error detail block. *)
Definition errLines (this : Reporter) (e : SerializedError) : list string :=
  match source e with
  | Some src =>
      ("  " +:+ colors_errorSource H
         (source_file src +:+ ":" +:+ num_to_string (source_line src)))
      :: (if truthy (codeExcerpt H src (stream_columns this))
          then [""; indentString H (codeExcerpt H src (stream_columns this)) 2]
          else [])
  | None => []
  end
  ++ (if avaAssertionError e then
        (if printMessage (formatSerializedError H e)
         then [""; indentString H (message e) 2] else [])
        ++ (if truthy (formatted_diff (formatSerializedError H e))
            then [""; indentString H (formatted_diff (formatSerializedError H e)) 2]
            else [])
        ++ (if truthy (improperUsageMessages_forError H e)
            then [""; indentString H (improperUsageMessages_forError H e) 2]
            else [])
      else if nonErrorObject e then
        [indentString H (trimOffNewlines H (formatted e)) 2]
      else [""; indentString H (message e) 2])
  ++ (if truthy (stack e) && includes newline (stack e)
      then [""; indentString H (colors_errorStack H (stack e)) 2]
      else []).

(** The lines of [writeFailure], one failure's detail block. *)
Definition failureLines (this : Reporter) (evt : Event) : list string :=
  match err evt with
  | Some e =>
      ("  " +:+ colors_title H (prefixTitle this (testFile evt) (title evt)))
      :: logLines evt ++ "" :: errLines this e
  | None => []
  end.

(** The count lines of [endRun], from the first one to the line about
    previous failures. *)
Definition countLines (this : Reporter) (s : Stats) : list string :=
  let postfix0 :=
    if watching this
    then " " +:+ chalk_gray_dim H ("[" +:+ toLocaleTimeString_now H +:+ "]")
    else "" in
  let postfix1 := if 0 <? failedHooks s then "" else postfix0 in
  let postfix2 := if 0 <? failedTests s then "" else postfix1 in
  (if 0 <? failedHooks s
   then ["  " +:+ colors_error H (num_to_string (failedHooks s) +:+ " "
                   +:+ plur H "hook" (failedHooks s) +:+ " failed") +:+ postfix0]
   else [])
  ++ (if 0 <? failedTests s
      then ["  " +:+ colors_error H (num_to_string (failedTests s) +:+ " "
                      +:+ plur H "test" (failedTests s) +:+ " failed") +:+ postfix1]
      else [])
  ++ (if (failedHooks s =? 0) && (failedTests s =? 0) && (0 <? passedTests s)
      then ["  " +:+ colors_pass H (num_to_string (passedTests s) +:+ " "
                      +:+ plur H "test" (passedTests s) +:+ " passed") +:+ postfix2]
      else [])
  ++ (if 0 <? passedKnownFailingTests s
      then ["  " +:+ colors_error H (num_to_string (passedKnownFailingTests s) +:+ " "
                      +:+ plur H "known failure" (passedKnownFailingTests s))]
      else [])
  ++ (if 0 <? skippedTests s
      then ["  " +:+ colors_skip H (num_to_string (skippedTests s) +:+ " "
                      +:+ plur H "test" (skippedTests s) +:+ " skipped")]
      else [])
  ++ (if 0 <? todoTests s
      then ["  " +:+ colors_todo H (num_to_string (todoTests s) +:+ " "
                      +:+ plur H "test" (todoTests s) +:+ " todo")]
      else [])
  ++ (if 0 <? unhandledRejections s
      then ["  " +:+ colors_error H (num_to_string (unhandledRejections s) +:+ " unhandled "
                      +:+ plur H "rejection" (unhandledRejections s))]
      else [])
  ++ (if 0 <? uncaughtExceptions s
      then ["  " +:+ colors_error H (num_to_string (uncaughtExceptions s) +:+ " uncaught "
                      +:+ plur H "exception" (uncaughtExceptions s))]
      else [])
  ++ (if 0 <? previousFailures this
      then ["  " +:+ colors_error H (num_to_string (previousFailures this) +:+ " previous "
                      +:+ plur H "failure" (previousFailures this)
                      +:+ " in test files that were not rerun")]
      else []).

(** One line of the known-failures list. *)
Definition knownFailureLine (this : Reporter) (evt : Event) : string :=
  "  " +:+ colors_error H (prefixTitle this (testFile evt) (title evt)).

(** The known-failures list of [endRun] with the blank line before it. *)
Definition knownFailuresSection (this : Reporter) (s : Stats) : list string :=
  if 0 <? passedKnownFailingTests s
  then "" :: map (knownFailureLine this) (knownFailures this)
  else [].

Definition three_blank_lines : list string := [""; ""; ""].

(** One failure's block with what [endRun] writes after it. *)
Definition failureBlock (this : Reporter) (lastFailure : option Event)
    (disclaimer : bool) (evt : Event) : list string :=
  failureLines this evt
  ++ (if not_same_object evt lastFailure || disclaimer then three_blank_lines else []).

(** The failure section of [endRun] with the blank line before it. *)
Definition failuresSection (this : Reporter) (s : Stats) : list string :=
  if (0 <? length (failures this))%nat
  then "" :: flat_map (failureBlock this (last (failures this))
                         (shouldWriteFailFastDisclaimer this s))
                      (failures this)
  else [].

Definition disclaimerLine (s : Stats) : string :=
  "  " +:+ colors_information H ("`--fail-fast` is on. " +:+ disclaimer_remaining H s +:+ ".").

Definition disclaimerSection (this : Reporter) (s : Stats) : list string :=
  if shouldWriteFailFastDisclaimer this s then [disclaimerLine s] else [].

Definition noFilesLine : string :=
  colors_error H ("  " +:+ figures_cross H +:+ " Couldn't find any files to test").

Definition noMatchingTestsLine : string :=
  colors_error H ("  " +:+ figures_cross H +:+ " Couldn't find any matching tests").

(** Every line of [endRun]. *)
Definition endRunLines (this : Reporter) : list string :=
  match stats this with
  | None => [noFilesLine; ""]
  | Some s =>
      if matching this && (selectedTests s =? 0) then [noMatchingTestsLine; ""]
      else
        [""] ++ countLines this s ++ knownFailuresSection this s
        ++ failuresSection this s ++ disclaimerSection this s ++ [""]
  end.

(** The first line of an internal-error block. *)
Definition internalErrorHeading (evt : Event) : string :=
  match testFile evt with
  | Some file =>
      if truthy file
      then colors_error H ("  " +:+ figures_cross H +:+ " Internal error when running "
                           +:+ path_relative_cwd H file)
      else colors_error H ("  " +:+ figures_cross H +:+ " Internal error")
  | None => colors_error H ("  " +:+ figures_cross H +:+ " Internal error")
  end.

(** The title line of an uncaught exception or unhandled rejection. *)
Definition exceptionTitle (evt : Event) (file : string) : string :=
  "  " +:+ colors_title H
            ((if String.eqb (type evt) "uncaught-exception"
              then "Uncaught exception in " else "Unhandled rejection in ")
             +:+ path_relative_cwd H file).

(** The lines an uncaught exception or unhandled rejection writes after its
    optional leading blank line. *)
Definition exceptionLines (this : Reporter) (evt : Event) (file : string)
    (e : SerializedError) : list string :=
  [exceptionTitle evt file; ""] ++ errLines this e ++ [""].


End Layout.

(** ** A plain-text instance of the collaborators, for concrete runs *)

Definition is_line_break (c : ascii) : bool :=
  Ascii.eqb c "010"%char || Ascii.eqb c "013"%char.

Fixpoint blank_until_eol (s : string) : bool :=
  match s with
  | EmptyString => true
  | String c s' =>
      if Ascii.eqb c "010"%char then true
      else if Ascii.eqb c " "%char || Ascii.eqb c "009"%char then blank_until_eol s'
      else false
  end.

(** [indent-string]: every line that is not blank gets the padding. *)
Fixpoint indent_from (pad : string) (at_line_start : bool) (s : string) : string :=
  match s with
  | EmptyString => ""
  | String c s' =>
      (if at_line_start && negb (blank_until_eol s) then pad else "")
      +:+ String c (indent_from pad (Ascii.eqb c "010"%char) s')
  end.

Fixpoint trim_leading_newlines (s : string) : string :=
  match s with
  | EmptyString => ""
  | String c s' => if is_line_break c then trim_leading_newlines s' else s
  end.

Fixpoint trim_trailing_newlines (s : string) : string :=
  match s with
  | EmptyString => ""
  | String c s' =>
      let rest := trim_trailing_newlines s' in
      if is_line_break c && String.eqb rest "" then "" else String c rest
  end.

(** No colours, paths shown as given, no code excerpt, no diff. *)
Definition plain : Helpers :=
  {| figures_cross := "✖"; figures_tick := "✔"; figures_info := "ℹ";
     colors_error := fun s => s; colors_errorSource := fun s => s;
     colors_errorStack := fun s => s; colors_stack := fun s => s;
     colors_skip := fun s => s; colors_todo := fun s => s;
     colors_title := fun s => s; colors_pass := fun s => s;
     colors_duration := fun s => s; colors_log := fun s => s;
     colors_information := fun s => s; chalk_gray_dim := fun s => s;
     indentString := fun s n => indent_from (repeat_string " " (N.to_nat n)) true s;
     prettyMs := fun ms => num_to_string ms +:+ "ms";
     plur := fun word count => if count =? 1 then word else word +:+ "s";
     plur_with := fun word plural count => if count =? 1 then word else plural;
     trimOffNewlines := fun s => trim_trailing_newlines (trim_leading_newlines s);
     path_relative_cwd := fun file => file;
     codeExcerpt := fun _ _ => "";
     formatSerializedError := fun _ => {| printMessage := true; formatted_diff := "" |};
     improperUsageMessages_forError := fun _ => "";
     prefixTitle_module :=
       fun _ file title =>
         match file with
         | Some f => f +:+ " › " +:+ title
         | None => title
         end;
     toLocaleTimeString_now := "12:00:00" |}.

(** ** Concrete events and runs *)

Definition boom : SerializedError :=
  {| summary := "Error: boom";
     stack := "Error: boom" +:+ newline +:+ "    at test.js:3:1";
     message := "boom"; source := None; avaAssertionError := false;
     nonErrorObject := false; formatted := "" |}.

(** An event object with the members a reporter branch may read; the
    others are left at their empty value. *)
Definition an_event (id : nat) (tag : string) (file : option string)
    (name : string) (e : option SerializedError) (known : bool)
    (snapshot : option Stats) (ms : N) : Event :=
  {| obj_id := id; type := tag; testFile := file; title := name; err := e;
     skip := false; todo := false; evt_stats := snapshot; knownFailing := known;
     period := 0; nonZeroExitCode := 0; signal := ""; forcedExit := false;
     chunk := ""; logs := None; duration := ms |}.

(** A snapshot of a run over one file. *)
Definition a_snapshot (failed passed knownPassed remaining nfiles finished : N) : Stats :=
  {| byFile := {[ "test.js" := {| file_declaredTests := 2; file_remainingTests := remaining |} ]};
     declaredTests := 2; failedHooks := 0; failedTests := failed;
     passedTests := passed; passedKnownFailingTests := knownPassed;
     skippedTests := 0; todoTests := 0; unhandledRejections := 0;
     uncaughtExceptions := 0; remainingTests := remaining; selectedTests := 2;
     files := nfiles; finishedWorkers := finished |}.

Definition a_plan : Plan :=
  {| plan_failFastEnabled := false; plan_matching := false;
     plan_previousFailures := 0; plan_files := ["test.js"];
     plan_filePathPrefix := ""; plan_status := 1%nat; plan_runVector := 1 |}.

(** A reporter on a stream eighty columns wide, after its first [startRun]. *)
Definition a_started_reporter : Reporter :=
  exec (startRun plain a_plan) (constructor (Some 80) false).

Definition a_failed_test : Event :=
  an_event 1 "test-failed" (Some "test.js") "adds" (Some boom) false None 3.

Definition another_failed_test : Event :=
  an_event 2 "test-failed" (Some "test.js") "subtracts" (Some boom) false None 3.

Definition a_passed_test : Event :=
  an_event 3 "test-passed" (Some "test.js") "adds" None false None 100.

Definition a_slow_passed_test : Event :=
  an_event 4 "test-passed" (Some "test.js") "multiplies" None false None 101.

Definition a_known_failure : Event :=
  an_event 5 "test-passed" (Some "test.js") "divides" None true None 250.

Definition an_uncaught_exception : Event :=
  an_event 6 "uncaught-exception" (Some "test.js") "" (Some boom) false None 0.

Definition an_unhandled_rejection : Event :=
  an_event 7 "unhandled-rejection" (Some "test.js") "" (Some boom) false None 0.

Definition an_internal_error : Event :=
  an_event 8 "internal-error" (Some "test.js") "" (Some boom) false None 0.


Definition a_stats_event (s : Stats) : Event :=
  an_event 10 "stats" None "" None false (Some s) 0.


(** ** Runs and layouts the properties speak of *)

(** The object [startRun(plan)] leaves behind on a reporter built with the
    given stream width and watch flag. *)
Definition started (H : Helpers) (plan : Plan) (columns : option N) (watch : bool) : Reporter :=
  {| stream_columns := columns; watching := watch;
     failFastEnabled := plan_failFastEnabled plan; failures := [];
     filesWithMissingAvaImports := ∅; knownFailures := [];
     lastLineIsEmpty := true; matching := plan_matching plan;
     prefixTitle :=
       if watch || (1 <? length (plan_files plan))%nat
       then fun testFile title =>
              prefixTitle_module H (plan_filePathPrefix plan) testFile title
       else fun testFile title => title;
     previousFailures := plan_previousFailures plan;
     removePreviousListener := Some (plan_status plan); stats := None |}.

(** What [startRun] does to the outside world, in order. *)
Definition startRun_effects (H : Helpers) (plan : Plan) (this : Reporter) : list Effect :=
  match removePreviousListener this with
  | Some previous => [Unsubscribe previous]
  | None => []
  end
  ++ [Subscribe (plan_status plan)]
  ++ (if watching this && (1 <? plan_runVector plan)
      then [Write (line (chalk_gray_dim H
                           (repeat_string "─" (N.to_nat (columns_or_80 this)))))]
      else [])
  ++ [Write (line "")].

(** Blocks laid out one after the other with a separator between each two. *)
Fixpoint separated_by (sep : list string) (blocks : list (list string)) : list string :=
  match blocks with
  | [] => []
  | [block] => block
  | block :: rest => block ++ sep ++ separated_by sep rest
  end.

(** The event object recorded last was not also recorded earlier. *)
Definition last_recorded_once (l : list Event) : Prop :=
  forall earlier lastFailure,
    l = earlier ++ [lastFailure] ->
    Forall (fun evt => obj_id evt <> obj_id lastFailure) earlier.

(** The failure section as the specification lays it out: a blank line,
    the blocks three blank lines apart, and three more blank lines when the
    disclaimer follows. *)
Definition spaced_failures (H : Helpers) (this : Reporter) (s : Stats) : list string :=
  [""] ++ separated_by three_blank_lines (map (failureLines H this) (failures this))
  ++ (if shouldWriteFailFastDisclaimer this s then three_blank_lines else []).

(** The summary line of a passed test that was expected to fail. *)
Definition knownFailureSummary (H : Helpers) (this : Reporter) (evt : Event) : string :=
  "  " +:+ colors_error H (figures_tick H) +:+ " "
  +:+ colors_error H (prefixTitle this (testFile evt) (title evt)).

(** A run in which the status emitter delivers one failure object twice. *)
Definition a_run_with_a_repeated_failure : Reporter :=
  deliver plain
    [a_stats_event (a_snapshot 2 0 0 0 1 1); a_failed_test; a_failed_test]
    a_started_reporter.

(** A run whose last snapshot counts no known failure although one passed. *)
Definition a_run_with_an_uncounted_known_failure : Reporter :=
  deliver plain [a_stats_event (a_snapshot 0 1 0 0 1 1); a_known_failure]
    a_started_reporter.

(** A run with one known failure, counted by the snapshot. *)
Definition a_run_with_a_known_failure : Reporter :=
  deliver plain [a_stats_event (a_snapshot 0 1 1 0 1 1); a_known_failure]
    a_started_reporter.

(** A run with two failed tests. *)
Definition a_run_with_two_failures : Reporter :=
  deliver plain
    [a_stats_event (a_snapshot 2 0 0 0 1 1); a_failed_test; another_failed_test]
    a_started_reporter.

(** [s] holds the character [c]. *)
Fixpoint has_char (c : ascii) (s : string) : bool :=
  match s with
  | EmptyString => false
  | String x s' => Ascii.eqb c x || has_char c s'
  end.

(** The rule of the package [plur] for a word given with its plural: the
    word itself for a count of one, the plural for any other count. *)
Definition plur_rule (H : Helpers) : Prop :=
  forall word plural count,
    plur_with H word plural count = if count =? 1 then word else plural.

(** The disclaimer as the specification words it: the clause about tests
    when tests remain, the clause about files when files were left out,
    joined by [, as well as ] when both are there; was and test are singular
    exactly for a count of one. *)
Definition tests_skipped_clause (n : N) : string :=
  "At least " +:+ num_to_string n +:+ " "
  +:+ (if n =? 1 then "test was" else "tests were") +:+ " skipped".

Definition files_skipped_clause (k : N) (with_verb : bool) : string :=
  num_to_string k +:+ " " +:+ (if k =? 1 then "test file" else "test files")
  +:+ (if with_verb
       then " " +:+ (if k =? 1 then "was" else "were") +:+ " skipped"
       else "").

Definition disclaimer_wording (s : Stats) : string :=
  let skippedFiles := files s - finishedWorkers s in
  if 0 <? remainingTests s then
    if finishedWorkers s <? files s
    then tests_skipped_clause (remainingTests s) +:+ ", as well as "
         +:+ files_skipped_clause skippedFiles false
    else tests_skipped_clause (remainingTests s)
  else
    if finishedWorkers s <? files s
    then files_skipped_clause skippedFiles true
    else "".

(** A fail-fast run stopped with two tests and two files left. *)
Definition a_fail_fast_run : Reporter :=
  deliver plain [a_stats_event (a_snapshot 1 0 0 2 5 3); a_failed_test]
    (exec (startRun plain
             {| plan_failFastEnabled := true; plan_matching := false;
                plan_previousFailures := 0; plan_files := ["test.js"];
                plan_filePathPrefix := ""; plan_status := 1%nat;
                plan_runVector := 1 |})
          (constructor (Some 80) false)).

(** * The rest of the two files *)

(** ** The stream of the tests (test/helper/tty-stream.js) *)

Module TTYStream.

(** [TTYStream.SEPARATOR] *)
Definition SEPARATOR : string := "---tty-stream-chunk-separator" +:+ newline.

(** The members the class sets; [chunks] holds buffers, here their bytes. *)
Record t := {
  isTTY : bool;
  columns : option N;
  sanitizers : list (string -> string);
  chunks : list string
}.

(** [new TTYStream(options)], [options.sanitizers] being optional. *)
Definition constructor (width : option N)
    (given : option (list (string -> string))) : t :=
  {| isTTY := true; columns := width;
     sanitizers := match given with Some l => l | None => [] end;
     chunks := [] |}.

(** [this.sanitizers.reduce((str, sanitizer) => sanitizer(str), chunk)],
    text standing for its utf8 bytes: [chunk.toString('utf8')] and
    [Buffer.from(..., 'utf8')] around it are not modelled, they give a
    chunk of well-formed utf8 back as it is. *)
Definition sanitized (this : t) (chunk : string) : string :=
  fold_left (fun str sanitizer => sanitizer str) (sanitizers this) chunk.

Definition push (more : list string) (this : t) : t :=
  {| isTTY := isTTY this; columns := columns this;
     sanitizers := sanitizers this; chunks := chunks this ++ more |}.

Definition _write (chunk : string) (this : t) : t :=
  push [sanitized this chunk; SEPARATOR] this.

Definition _writev (batch : list string) (this : t) : t :=
  push [SEPARATOR] (push (map (sanitized this) batch) this).

(** [Buffer.concat(this.chunks)] *)
Definition asBuffer (this : t) : string :=
  fold_right String.append "" (chunks this).

End TTYStream.

(** A chunk of seven-bit characters only: decoding it as utf8 and encoding
    it again gives the same bytes, wherever the chunk was cut. *)
Fixpoint seven_bit (chunk : string) : bool :=
  match chunk with
  | EmptyString => true
  | String c rest => (N_of_ascii c <? 128) && seven_bit rest
  end.

(** Node's [Writable] between the reporter and a [TTYStream]: a write made
    while the stream is corked is kept back; the last [uncork] hands what
    was kept back to [_writev] when it is more than one chunk and to
    [_write] when it is one; a write made while the stream is not corked
    goes to [_write] at once. *)
Record Writable := {
  corked : nat;
  buffered : list string;
  sink : TTYStream.t
}.

Definition Writable_step (w : Writable) (e : Effect) : Writable :=
  match e with
  | Cork => {| corked := S (corked w); buffered := buffered w; sink := sink w |}
  | Uncork =>
      match corked w with
      | O => w
      | S O =>
          {| corked := O; buffered := [];
             sink := match buffered w with
                     | [] => sink w
                     | [chunk] => TTYStream._write chunk (sink w)
                     | batch => TTYStream._writev batch (sink w)
                     end |}
      | S n => {| corked := n; buffered := buffered w; sink := sink w |}
      end
  | Write chunk =>
      match corked w with
      | O => {| corked := O; buffered := buffered w;
                sink := TTYStream._write chunk (sink w) |}
      | S _ => {| corked := corked w; buffered := buffered w ++ [chunk];
                  sink := sink w |}
      end
  | Subscribe _ | Unsubscribe _ => w
  end.

Definition Writable_run (tr : list Effect) (w : Writable) : Writable :=
  fold_left Writable_step tr w.

(** A stream that is not corked and holds nothing back. *)
Definition idle (s : TTYStream.t) : Writable :=
  {| corked := O; buffered := []; sink := s |}.

(** The effects of [m] are writes only. *)
Definition writes_only {A} (m : Js A) : Prop :=
  forall this, effects m this = map Write (written m this).

(** The snapshot a sequence of events leaves: that of the last [stats]
    event among them, the one held before when there is none. *)
Definition latest_stats (evts : list Event) (held : option Stats) : option Stats :=
  fold_left
    (fun held evt => if String.eqb (type evt) "stats" then evt_stats evt else held)
    evts held.

(** The members of the object that [startRun] sets and no event changes. *)
Definition same_configuration (a b : Reporter) : Prop :=
  stream_columns a = stream_columns b /\ watching a = watching b
  /\ failFastEnabled a = failFastEnabled b /\ matching a = matching b
  /\ prefixTitle a = prefixTitle b /\ previousFailures a = previousFailures b
  /\ removePreviousListener a = removePreviousListener b.

(** An event object like [evt] but for its [chunk]. *)
Definition with_chunk (raw : string) (evt : Event) : Event :=
  {| obj_id := obj_id evt; type := type evt; testFile := testFile evt;
     title := title evt; err := err evt; skip := skip evt; todo := todo evt;
     evt_stats := evt_stats evt; knownFailing := knownFailing evt;
     period := period evt; nonZeroExitCode := nonZeroExitCode evt;
     signal := signal evt; forcedExit := forcedExit evt; chunk := raw;
     logs := logs evt; duration := duration evt |}.

Definition a_stdout_chunk : Event :=
  with_chunk "hello" (an_event 12 "worker-stdout" (Some "test.js") "" None false None 0).

Definition a_missing_import : Event :=
  an_event 13 "missing-ava-import" (Some "test.js") "" None false None 0.

Definition a_worker_failed : Event :=
  an_event 14 "worker-failed" (Some "test.js") "" None false None 0.

Definition a_failure_without_err : Event :=
  an_event 15 "test-failed" (Some "test.js") "adds" None false None 0.

Definition an_internal_error_without_err : Event :=
  an_event 16 "internal-error" (Some "test.js") "" None false None 0.

(** The count lines about hooks, tests and passes as a table: the failed
    lines shut the passed line out, and the watch-mode time stamp goes on
    the first line of the three that is written. *)
Definition leading_count_lines (H : Helpers) (this : Reporter) (s : Stats) : list string :=
  let stamp :=
    if watching this
    then " " +:+ chalk_gray_dim H ("[" +:+ toLocaleTimeString_now H +:+ "]")
    else "" in
  let hooks :=
    "  " +:+ colors_error H (num_to_string (failedHooks s) +:+ " "
                             +:+ plur H "hook" (failedHooks s) +:+ " failed") in
  let tests :=
    "  " +:+ colors_error H (num_to_string (failedTests s) +:+ " "
                             +:+ plur H "test" (failedTests s) +:+ " failed") in
  let passed :=
    "  " +:+ colors_pass H (num_to_string (passedTests s) +:+ " "
                            +:+ plur H "test" (passedTests s) +:+ " passed") in
  if 0 <? failedHooks s then
    (hooks +:+ stamp) :: (if 0 <? failedTests s then [tests] else [])
  else if 0 <? failedTests s then [tests +:+ stamp]
  else if 0 <? passedTests s then [passed +:+ stamp]
  else [].

(** The count lines after those three, from known failures to previous
    failures. *)
Definition further_count_lines (H : Helpers) (this : Reporter) (s : Stats) : list string :=
  (if 0 <? passedKnownFailingTests s
   then ["  " +:+ colors_error H (num_to_string (passedKnownFailingTests s) +:+ " "
                   +:+ plur H "known failure" (passedKnownFailingTests s))]
   else [])
  ++ (if 0 <? skippedTests s
      then ["  " +:+ colors_skip H (num_to_string (skippedTests s) +:+ " "
                      +:+ plur H "test" (skippedTests s) +:+ " skipped")]
      else [])
  ++ (if 0 <? todoTests s
      then ["  " +:+ colors_todo H (num_to_string (todoTests s) +:+ " "
                      +:+ plur H "test" (todoTests s) +:+ " todo")]
      else [])
  ++ (if 0 <? unhandledRejections s
      then ["  " +:+ colors_error H (num_to_string (unhandledRejections s) +:+ " unhandled "
                      +:+ plur H "rejection" (unhandledRejections s))]
      else [])
  ++ (if 0 <? uncaughtExceptions s
      then ["  " +:+ colors_error H (num_to_string (uncaughtExceptions s) +:+ " uncaught "
                      +:+ plur H "exception" (uncaughtExceptions s))]
      else [])
  ++ (if 0 <? previousFailures this
      then ["  " +:+ colors_error H (num_to_string (previousFailures this) +:+ " previous "
                      +:+ plur H "failure" (previousFailures this)
                      +:+ " in test files that were not rerun")]
      else []).

(** A run filtered by a match that selected no test, with a failure whose
    payload lacks its error. *)
Definition a_run_matching_nothing : Reporter :=
  deliver plain
    [ a_stats_event
        {| byFile := ∅; declaredTests := 2; failedHooks := 0; failedTests := 1;
           passedTests := 0; passedKnownFailingTests := 0; skippedTests := 0;
           todoTests := 0; unhandledRejections := 0; uncaughtExceptions := 0;
           remainingTests := 0; selectedTests := 0; files := 1;
           finishedWorkers := 1 |};
      a_failure_without_err ]
    (exec (startRun plain
             {| plan_failFastEnabled := false; plan_matching := true;
                plan_previousFailures := 0; plan_files := ["test.js"];
                plan_filePathPrefix := ""; plan_status := 1%nat;
                plan_runVector := 1 |})
          (constructor (Some 80) false)).

(** A run with a failure whose payload lacks its error. *)
Definition a_run_with_a_failure_without_err : Reporter :=
  deliver plain [a_stats_event (a_snapshot 1 0 0 0 1 1); a_failure_without_err]
    a_started_reporter.

(** The error of reading a member of an [evt.err] that is [undefined]. *)
Definition undefined_err : JsError := TypeError "Cannot read property of undefined".

(** What [writeLogs] makes of one log entry: the indented entry with its
    six leading spaces replaced by four spaces, the information figure and
    a space, or the indented entry itself when it does not start with six
    spaces. *)
Definition marked_log (H : Helpers) (log written_line : string) : Prop :=
  (exists rest,
      indentString H (colors_log H log) 6 = "      " +:+ rest
      /\ written_line = "    " +:+ colors_information H (figures_info H) +:+ " " +:+ rest)
  \/ (startsWith "      " (indentString H (colors_log H log) 6) = false
      /\ written_line = indentString H (colors_log H log) 6).

(** An event with three log entries, the second empty, the third of two
    lines. *)
Definition a_passed_test_with_logs : Event :=
  {| obj_id := 17; type := "test-passed"; testFile := Some "test.js";
     title := "adds"; err := None; skip := false; todo := false;
     evt_stats := None; knownFailing := false; period := 0;
     nonZeroExitCode := 0; signal := ""; forcedExit := false; chunk := "";
     logs := Some ["first"; ""; "second" +:+ newline +:+ "third"]; duration := 1 |}.

Definition a_plain_stream : TTYStream.t := TTYStream.constructor (Some 80) None.

(** The stream after Node handed it what one corked call wrote. *)
Definition after_corked_call (batch : list string) (s : TTYStream.t) : TTYStream.t :=
  match batch with
  | [] => s
  | _ => TTYStream._writev batch s
  end.

(** An error with an empty message and a stack of one line, as that of
    [new Error()] when its stack has nothing but the heading left. *)
Definition a_bare_error : SerializedError :=
  {| summary := "Error"; stack := "Error"; message := ""; source := None;
     avaAssertionError := false; nonErrorObject := false; formatted := "" |}.

Definition a_bare_exception : Event :=
  an_event 18 "uncaught-exception" (Some "test.js") "" (Some a_bare_error) false None 0.

(** * Properties *)

(** ** The monad *)

Lemma bind_get {A} (k : Reporter -> Js A) this :
  (get ≫= k) this = k this this.
Proof.
  unfold mbind, Js_bind, js_bind, get.
  destruct (k this this) as [[r st] tr]. reflexivity.
Qed.

Lemma bind_ret {A B} (a : A) (k : A -> Js B) this :
  (mret a ≫= k) this = k a this.
Proof.
  unfold mbind, mret, Js_bind, Js_ret, js_bind, js_ret.
  destruct (k a this) as [[r st] tr]. reflexivity.
Qed.

Lemma bind_normal {A B} (m : Js A) (k : A -> Js B) this a st1 tr1 :
  m this = (Normal a, st1, tr1) ->
  (m ≫= k) this = (let '(r, st2, tr2) := k a st1 in (r, st2, tr1 ++ tr2)).
Proof. intros E. unfold mbind, Js_bind, js_bind. rewrite E. reflexivity. Qed.

Lemma bind_throw {A B} (m : Js A) (k : A -> Js B) this e st1 tr1 :
  m this = (Throw e, st1, tr1) -> (m ≫= k) this = (Throw e, st1, tr1).
Proof. intros E. unfold mbind, Js_bind, js_bind. rewrite E. reflexivity. Qed.

Lemma set_lastLineIsEmpty_same this :
  set_lastLineIsEmpty (lastLineIsEmpty this) this = this.
Proof. destruct this; reflexivity. Qed.

(** ** Calls that only move the blank-line flag *)

Lemma flag_only_ret {A} (a : A) : flag_only (mret a : Js A).
Proof. intros this. exists (lastLineIsEmpty this). symmetry. apply set_lastLineIsEmpty_same. Qed.

Lemma flag_only_get : flag_only get.
Proof. intros this. exists (lastLineIsEmpty this). symmetry. apply set_lastLineIsEmpty_same. Qed.

Lemma flag_only_throw {A} e : flag_only (throw e : Js A).
Proof. intros this. exists (lastLineIsEmpty this). symmetry. apply set_lastLineIsEmpty_same. Qed.

Lemma flag_only_perform e : flag_only (perform e).
Proof. intros this. exists (lastLineIsEmpty this). symmetry. apply set_lastLineIsEmpty_same. Qed.

Lemma flag_only_set_flag b : flag_only (modify (set_lastLineIsEmpty b)).
Proof. intros this. exists b. reflexivity. Qed.

Lemma flag_only_bind {A B} (m : Js A) (k : A -> Js B) :
  flag_only m -> (forall a, flag_only (k a)) -> flag_only (m ≫= k).
Proof.
  intros Hm Hk this. destruct (Hm this) as [b Eb].
  unfold exec in *. destruct (m this) as [[[a | e] st1] tr1] eqn:E; simpl in Eb; subst st1.
  - rewrite (bind_normal _ _ _ _ _ _ E).
    destruct (Hk a (set_lastLineIsEmpty b this)) as [c Ec]. unfold exec in Ec.
    destruct (k a (set_lastLineIsEmpty b this)) as [[r st2] tr2]; simpl in *.
    exists c. rewrite Ec. reflexivity.
  - rewrite (bind_throw _ _ _ _ _ _ E). exists b. reflexivity.
Qed.

Lemma flag_only_try_finally (body cleanup : Js unit) :
  flag_only body -> flag_only cleanup -> flag_only (try_finally body cleanup).
Proof.
  intros Hb Hc this. destruct (Hb this) as [b Eb].
  unfold exec, try_finally in *.
  destruct (body this) as [[r st1] tr1]; simpl in Eb; subst st1.
  destruct (Hc (set_lastLineIsEmpty b this)) as [c Ec]. unfold exec in Ec.
  destruct (cleanup (set_lastLineIsEmpty b this)) as [[[u | e] st2] tr2];
    simpl in *; exists c; rewrite Ec; reflexivity.
Qed.

(** Decomposes a method body into its calls, each of which only moves the
    flag. *)
Ltac flag_only_step :=
  match goal with
  | |- flag_only (mbind _ _) => apply flag_only_bind; [ | intros ? ]
  | |- flag_only (mret _) => apply flag_only_ret
  | |- flag_only get => apply flag_only_get
  | |- flag_only (throw _) => apply flag_only_throw
  | |- flag_only (perform _) => apply flag_only_perform
  | |- flag_only (modify (set_lastLineIsEmpty _)) => apply flag_only_set_flag
  | |- flag_only (try_finally _ _) => apply flag_only_try_finally
  | |- flag_only (if ?c then _ else _) => destruct c
  | |- flag_only (match ?x with _ => _ end) => destruct x
  | |- flag_only (let _ := _ in _) => cbv zeta
  end.

Lemma flag_only_writeLine str : flag_only (writeLine str).
Proof. unfold writeLine, stream_write. repeat flag_only_step. Qed.

Lemma flag_only_ensureEmptyLine : flag_only ensureEmptyLine.
Proof. unfold ensureEmptyLine. repeat (flag_only_step || apply flag_only_writeLine). Qed.

Lemma flag_only_path_relative H to : flag_only (path_relative H to).
Proof. unfold path_relative. repeat flag_only_step. Qed.

Lemma flag_only_err_of evt : flag_only (err_of evt).
Proof. unfold err_of. repeat flag_only_step. Qed.

Lemma flag_only_member_of {A} (o : option A) : flag_only (member_of o).
Proof. unfold member_of. repeat flag_only_step. Qed.

Ltac flag_only_leaf :=
  first
    [ apply flag_only_writeLine
    | apply flag_only_ensureEmptyLine
    | apply flag_only_path_relative
    | apply flag_only_err_of
    | apply flag_only_member_of ].

Section Writers.

Variable H : Helpers.

Lemma flag_only_writeErr evt : flag_only (writeErr H evt).
Proof. unfold writeErr. repeat (flag_only_step || flag_only_leaf). Qed.

Lemma flag_only_writeLogs evt : flag_only (writeLogs H evt).
Proof.
  unfold writeLogs. destruct (logs evt) as [l | ]; [ | apply flag_only_ret ].
  induction l as [ | log rest IH]; simpl;
    repeat (assumption || flag_only_step || flag_only_leaf).
Qed.

Lemma flag_only_writeTestSummary evt : flag_only (writeTestSummary H evt).
Proof.
  unfold writeTestSummary.
  repeat first [ apply flag_only_writeLogs | flag_only_step | flag_only_leaf ].
Qed.

Lemma flag_only_writeFailure evt : flag_only (writeFailure H evt).
Proof.
  unfold writeFailure.
  repeat first
    [ apply flag_only_writeLogs | apply flag_only_writeErr | flag_only_step | flag_only_leaf ].
Qed.

End Writers.

(** ** Calls that write lines *)

Lemma after_lines_app l1 l2 this :
  after_lines l2 (after_lines l1 this) = after_lines (l1 ++ l2) this.
Proof.
  unfold after_lines. rewrite last_app.
  destruct (last l2), (last l1); reflexivity.
Qed.

Lemma emits_ret this : emits (mret tt) this [].
Proof. reflexivity. Qed.

Lemma emits_bind (m k : Js unit) this l1 l2 :
  emits m this l1 -> emits k (after_lines l1 this) l2 ->
  emits (m ;; k) this (l1 ++ l2).
Proof.
  unfold emits. intros E1 E2.
  rewrite (bind_normal _ _ _ _ _ _ E1), E2, after_lines_app, map_app.
  reflexivity.
Qed.

Lemma emits_cons (m k : Js unit) this l ls :
  emits m this [l] -> emits k (after_lines [l] this) ls ->
  emits (m ;; k) this (l :: ls).
Proof. intros E1 E2. apply (emits_bind _ _ _ [l] ls E1 E2). Qed.

Lemma emits_normal m this ls : emits m this ls -> returns_normally m this.
Proof. unfold emits, returns_normally, completion. intros ->. reflexivity. Qed.

Lemma emits_written m this ls : emits m this ls -> written m this = map line ls.
Proof.
  unfold emits, written, effects. intros ->. simpl.
  induction ls as [ | l ls IH]; simpl; [ reflexivity | f_equal; exact IH ].
Qed.

Lemma emits_exec m this ls : emits m this ls -> exec m this = after_lines ls this.
Proof. unfold emits, exec. intros ->. reflexivity. Qed.

Section Lines.

Variable H : Helpers.

Lemma emits_writeLine str this : emits (writeLine str) this [str].
Proof. reflexivity. Qed.

Lemma emits_writeLogs evt this : emits (writeLogs H evt) this (logLines H evt).
Proof.
  unfold writeLogs, logLines. destruct (logs evt) as [l | ]; [ | apply emits_ret ].
  revert this. induction l as [ | log rest IH]; intros this; simpl.
  - apply emits_ret.
  - apply emits_cons; [ apply emits_writeLine | apply IH ].
Qed.

Lemma emits_writeErr evt e this :
  err evt = Some e -> emits (writeErr H evt) this (errLines H this e).
Proof.
  intros E. unfold emits, writeErr, errLines. rewrite bind_get.
  unfold err_of. rewrite E, bind_ret.
  destruct (source e) as [src | ];
    [ destruct (truthy (codeExcerpt H src (stream_columns this))) | ];
    (destruct (avaAssertionError e);
     [ destruct (printMessage (formatSerializedError H e));
       destruct (truthy (formatted_diff (formatSerializedError H e)));
       destruct (truthy (improperUsageMessages_forError H e))
     | destruct (nonErrorObject e) ]);
    destruct (truthy (stack e)); try destruct (includes newline (stack e));
    reflexivity.
Qed.

Lemma errLines_after_lines ls this e :
  errLines H (after_lines ls this) e = errLines H this e.
Proof. unfold errLines, after_lines. destruct (last ls); reflexivity. Qed.

Lemma prefixTitle_after_lines ls this :
  prefixTitle (after_lines ls this) = prefixTitle this.
Proof. unfold after_lines. destruct (last ls); reflexivity. Qed.

Lemma failureLines_after_lines ls this evt :
  failureLines H (after_lines ls this) evt = failureLines H this evt.
Proof.
  unfold failureLines. rewrite prefixTitle_after_lines.
  destruct (err evt); [ rewrite errLines_after_lines | ]; reflexivity.
Qed.

Lemma emits_writeFailure evt this :
  has_err evt -> emits (writeFailure H evt) this (failureLines H this evt).
Proof.
  unfold has_err, writeFailure, failureLines. intros E.
  destruct (err evt) as [e | ] eqn:Ee; [ clear E | congruence ].
  unfold emits. rewrite bind_get. fold (emits).
  apply emits_cons; [ apply emits_writeLine | ].
  apply emits_bind; [ apply emits_writeLogs | ].
  apply emits_cons; [ apply emits_writeLine | ].
  rewrite <- (errLines_after_lines
                ["  " +:+ colors_title H (prefixTitle this (testFile evt) (title evt))]),
    <- (errLines_after_lines (logLines H evt)), <- (errLines_after_lines [""]).
  apply emits_writeErr, Ee.
Qed.

End Lines.

(** ** What one event does to the object *)

Lemma exec_whileCorked m this : exec (whileCorked m) this = exec m this.
Proof.
  unfold exec, whileCorked, try_finally, perform, mbind, Js_bind, js_bind.
  destruct (m this) as [[r st] tr]. reflexivity.
Qed.

Lemma completion_whileCorked m this :
  completion (whileCorked m) this = completion m this.
Proof.
  unfold completion, whileCorked, try_finally, perform, mbind, Js_bind, js_bind.
  destruct (m this) as [[r st] tr]. reflexivity.
Qed.

Lemma written_chunks_app tr1 tr2 :
  written_chunks (tr1 ++ tr2) = written_chunks tr1 ++ written_chunks tr2.
Proof.
  induction tr1 as [ | [c | | | k | k] tr1 IH]; simpl; rewrite ?IH; reflexivity.
Qed.

Lemma effects_whileCorked m this :
  effects (whileCorked m) this = Cork :: effects m this ++ [Uncork].
Proof.
  unfold effects, whileCorked, try_finally, perform, mbind, Js_bind, js_bind.
  destruct (m this) as [[r st] tr]. reflexivity.
Qed.

Lemma exec_modify_then {A} f (k : Js A) this :
  exec (modify f ;; k) this = exec k (f this).
Proof.
  unfold exec, modify, mbind, Js_bind, js_bind.
  destruct (k (f this)) as [[r st] tr]. reflexivity.
Qed.

Lemma flag_only_exec {A} (m : Js A) this :
  flag_only m -> exists b, exec m this = set_lastLineIsEmpty b this.
Proof. intros F. apply F. Qed.

Lemma written_whileCorked m this :
  written (whileCorked m) this = written m this.
Proof.
  unfold written. rewrite effects_whileCorked. simpl.
  rewrite written_chunks_app, app_nil_r. reflexivity.
Qed.

Ltac flag_tac :=
  repeat first
    [ apply flag_only_writeLine
    | apply flag_only_ensureEmptyLine
    | apply flag_only_path_relative
    | apply flag_only_err_of
    | apply flag_only_member_of
    | apply flag_only_writeLogs
    | apply flag_only_writeErr
    | apply flag_only_writeTestSummary
    | apply flag_only_writeFailure
    | flag_only_step ].

Ltac tag_case evt tag :=
  let E := fresh "E" in
  destruct (String.eqb_spec (type evt) tag) as [E | ?];
  [ rewrite ?E; cbn [String.eqb Ascii.eqb Bool.eqb orb andb negb] | ].

Ltac close_flag_only :=
  match goal with
  | |- exists b, (?m ?t).1.2 = set_lastLineIsEmpty b ?t =>
      apply (flag_only_exec m t); unfold stream_write; flag_tac
  | |- exists b, ((modify ?f ;; ?k) ?t).1.2 = set_lastLineIsEmpty b ?u =>
      change (exists b, exec (modify f ;; k) t = set_lastLineIsEmpty b u);
      rewrite exec_modify_then; apply (flag_only_exec k u); flag_tac
  end.

Section Consume.
Variable H : Helpers.

Lemma consume_records evt this :
  exists b, exec (consumeStateChange H evt) this
            = set_lastLineIsEmpty b (record_event evt this).
Proof.
  unfold exec, consumeStateChange, record_event, is_failure_event, is_known_failure_event.
  rewrite bind_get. cbv zeta.
  tag_case evt "declared-test". { close_flag_only. }
  tag_case evt "hook-failed". { close_flag_only. }
  tag_case evt "internal-error". { close_flag_only. }
  tag_case evt "missing-ava-import". { close_flag_only. }
  tag_case evt "selected-test". { close_flag_only. }
  tag_case evt "stats".
  { exists (lastLineIsEmpty this). destruct this; reflexivity. }
  tag_case evt "test-failed". { close_flag_only. }
  tag_case evt "test-passed".
  { destruct (knownFailing evt).
    - close_flag_only.
    - rewrite bind_ret. close_flag_only. }
  tag_case evt "timeout". { close_flag_only. }
  tag_case evt "uncaught-exception". { close_flag_only. }
  tag_case evt "unhandled-rejection". { close_flag_only. }
  tag_case evt "worker-failed". { close_flag_only. }
  tag_case evt "worker-finished". { close_flag_only. }
  tag_case evt "worker-stderr". { close_flag_only. }
  tag_case evt "worker-stdout". { close_flag_only. }
  cbn [orb andb]. close_flag_only.
Qed.
End Consume.

(** ** A run: the events delivered between [startRun] and [endRun] *)

Section Deliver.

Variable H : Helpers.

Lemma deliver_records evt this :
  exists b, exec (this_consumeStateChange H evt) this
            = set_lastLineIsEmpty b (record_event evt this).
Proof. unfold this_consumeStateChange. rewrite exec_whileCorked. apply consume_records. Qed.

Lemma failures_record_event evt this :
  failures (record_event evt this)
  = failures this ++ (if is_failure_event evt then [evt] else []).
Proof.
  unfold record_event. destruct (is_failure_event evt); [ reflexivity | ].
  rewrite app_nil_r.
  repeat match goal with |- context [if ?c then _ else _] => destruct c end; reflexivity.
Qed.

Lemma knownFailures_record_event evt this :
  knownFailures (record_event evt this)
  = knownFailures this ++ (if is_known_failure_event evt then [evt] else []).
Proof.
  unfold record_event, is_known_failure_event, is_failure_event.
  destruct (String.eqb_spec (type evt) "test-passed") as [E | ?].
  - rewrite E. simpl. destruct (knownFailing evt); simpl; rewrite ?app_nil_r; reflexivity.
  - simpl. rewrite app_nil_r.
    repeat match goal with |- context [if ?c then _ else _] => destruct c end; reflexivity.
Qed.

Lemma stats_record_event evt this :
  type evt <> "stats" -> stats (record_event evt this) = stats this.
Proof.
  intros NE. unfold record_event.
  destruct (String.eqb_spec (type evt) "stats") as [E | ?]; [ contradiction | ].
  repeat match goal with |- context [if ?c then _ else _] => destruct c end; reflexivity.
Qed.

Lemma deliver_failures evts this :
  failures (deliver H evts this) = failures this ++ List.filter is_failure_event evts.
Proof.
  revert this. induction evts as [ | evt rest IH]; intros this; simpl.
  - rewrite app_nil_r. reflexivity.
  - destruct (deliver_records evt this) as [b ->].
    rewrite IH. change (failures (set_lastLineIsEmpty b ?x)) with (failures x).
    rewrite failures_record_event.
    destruct (is_failure_event evt); rewrite <- app_assoc; reflexivity.
Qed.

Lemma deliver_knownFailures evts this :
  knownFailures (deliver H evts this)
  = knownFailures this ++ List.filter is_known_failure_event evts.
Proof.
  revert this. induction evts as [ | evt rest IH]; intros this; simpl.
  - rewrite app_nil_r. reflexivity.
  - destruct (deliver_records evt this) as [b ->].
    rewrite IH. change (knownFailures (set_lastLineIsEmpty b ?x)) with (knownFailures x).
    rewrite knownFailures_record_event.
    destruct (is_known_failure_event evt); rewrite <- app_assoc; reflexivity.
Qed.

Lemma deliver_stats evts this :
  Forall (fun evt => type evt <> "stats") evts ->
  stats (deliver H evts this) = stats this.
Proof.
  intros F. revert this. induction F as [ | evt rest NE F IH]; intros this; simpl.
  - reflexivity.
  - destruct (deliver_records evt this) as [b ->].
    rewrite IH. change (stats (set_lastLineIsEmpty b ?x)) with (stats x).
    apply stats_record_event, NE.
Qed.

End Deliver.

(** ** The layout of the end-of-run summary *)

Section EndRun.
Variable H : Helpers.

Lemma emits_when (c : bool) str this :
  emits (if c then writeLine str else mret tt) this (if c then [str] else []).
Proof. destruct c; [ apply emits_writeLine | apply emits_ret ]. Qed.

Lemma emits_knownFailures_loop that l this :
  emits (endRun_knownFailures_loop H that l) this (map (knownFailureLine H that) l).
Proof.
  revert this. induction l as [ | evt rest IH]; intros this; simpl.
  - apply emits_ret.
  - apply emits_cons; [ apply emits_writeLine | apply IH ].
Qed.

Lemma failureBlock_after_lines ls this lf d evt :
  failureBlock H (after_lines ls this) lf d evt = failureBlock H this lf d evt.
Proof. unfold failureBlock. rewrite failureLines_after_lines. reflexivity. Qed.

Lemma emits_failures_loop lf d l this :
  Forall has_err l ->
  emits (endRun_failures_loop H lf d l) this (flat_map (failureBlock H this lf d) l).
Proof.
  intros F. revert this. induction F as [ | evt rest E F IH]; intros this; simpl.
  - apply emits_ret.
  - unfold failureBlock at 1. rewrite <- app_assoc.
    apply emits_bind; [ apply emits_writeFailure, E | ].
    apply emits_bind.
    + destruct (not_same_object evt lf || d); [ | apply emits_ret ].
      apply emits_cons; [ apply emits_writeLine | ].
      apply emits_cons; apply emits_writeLine.
    + rewrite after_lines_app.
      match goal with
      | |- emits _ (after_lines ?ls _) _ =>
          rewrite <- (flat_map_ext _ _ (failureBlock_after_lines ls this lf d))
      end.
      apply IH.
Qed.

Lemma endRun_emits this :
  Forall has_err (failures this) -> emits (endRun H) this (endRunLines H this).
Proof.
  intros F. unfold emits, endRun, endRunLines. rewrite bind_get.
  destruct (stats this) as [s | ].
  2:{ apply emits_cons; apply emits_writeLine. }
  destruct (matching this && (selectedTests s =? 0)).
  { apply emits_cons; apply emits_writeLine. }
  cbv zeta. unfold countLines. cbv zeta. rewrite <- !app_assoc.
  apply emits_bind; [ apply emits_writeLine | ].
  do 9 (apply emits_bind; [ apply emits_when | ]).
  apply emits_bind.
  { unfold knownFailuresSection. destruct (0 <? passedKnownFailingTests s); [ | apply emits_ret ].
    apply emits_cons; [ apply emits_writeLine | apply emits_knownFailures_loop ]. }
  apply emits_bind.
  { unfold failuresSection. destruct (0 <? length (failures this))%nat; [ | apply emits_ret ].
    apply emits_cons; [ apply emits_writeLine | ].
    rewrite !after_lines_app.
    match goal with
    | |- emits (endRun_failures_loop _ ?lf ?d _) (after_lines ?ls _) _ =>
        rewrite <- (flat_map_ext _ _ (failureBlock_after_lines ls this lf d))
    end.
    apply emits_failures_loop, F. }
  apply emits_bind; [ | apply emits_writeLine ].
  unfold disclaimerSection, disclaimerLine. apply emits_when.
Qed.
End EndRun.

(** ** Strings *)

Lemma append_cons (x : ascii) (a b : string) : String x a +:+ b = String x (a +:+ b).
Proof. reflexivity. Qed.

Lemma append_assoc (a b c : string) : (a +:+ b) +:+ c = a +:+ (b +:+ c).
Proof.
  induction a as [ | x a IH]; [ reflexivity | ].
  rewrite !append_cons, IH. reflexivity.
Qed.

Lemma append_empty_r (a : string) : a +:+ "" = a.
Proof.
  induction a as [ | x a IH]; [ reflexivity | ].
  rewrite append_cons, IH. reflexivity.
Qed.

Lemma length_append (a b : string) :
  String.length (a +:+ b) = (String.length a + String.length b)%nat.
Proof.
  induction a as [ | x a IH]; [ reflexivity | ].
  rewrite append_cons. simpl. rewrite IH. reflexivity.
Qed.

Lemma trailing_newlines_le s : (trailing_newlines s <= String.length s)%nat.
Proof.
  induction s as [ | c s IH]; simpl; [ lia | ].
  destruct (Ascii.eqb c "010" && Nat.eqb (trailing_newlines s) (String.length s)); lia.
Qed.

(** Text before a line that is not blank does not count. *)
Lemma trailing_newlines_after a b :
  (trailing_newlines b < String.length b)%nat ->
  trailing_newlines (a +:+ b) = trailing_newlines b.
Proof.
  intros Lt. induction a as [ | c a IH]; [ reflexivity | ].
  rewrite append_cons. simpl. rewrite IH, length_append.
  destruct (Nat.eqb_spec (trailing_newlines b) (String.length a + String.length b)) as [E | ?];
    [ lia | ].
  rewrite andb_false_r. reflexivity.
Qed.

Lemma text_before_keeps_text a b :
  (trailing_newlines b < String.length b)%nat ->
  (trailing_newlines (a +:+ b) < String.length (a +:+ b))%nat.
Proof. intros Lt. rewrite trailing_newlines_after, length_append; lia. Qed.

(** A line with text in it that does not end in a newline, followed by
    newlines only. *)
Lemma trailing_newlines_text_then l nls :
  l <> "" -> trailing_newlines l = 0%nat ->
  trailing_newlines nls = String.length nls ->
  trailing_newlines (l +:+ nls) = String.length nls.
Proof.
  intros NE Z All. induction l as [ | c l IH]; [ congruence | ].
  rewrite append_cons. simpl in *. destruct l as [ | d l].
  - change ("" +:+ nls) with nls. simpl in Z. rewrite All, Nat.eqb_refl.
    destruct (Ascii.eqb c "010"); simpl in *; [ discriminate | reflexivity ].
  - assert (Zl : trailing_newlines (String d l) = 0%nat).
    { destruct (Ascii.eqb c "010" && _); [ discriminate | exact Z ]. }
    rewrite (IH ltac:(discriminate) Zl).
    rewrite append_cons. change (String.length (String d ?x)) with (S (String.length x)).
    rewrite length_append.
    destruct (Nat.eqb_spec (String.length nls) (S (String.length l + String.length nls)));
      [ lia | ].
    rewrite andb_false_r. reflexivity.
Qed.

Lemma emits_bind_ret {A} (a : A) (k : A -> Js unit) this ls :
  emits (k a) this ls -> emits (mret a ≫= k) this ls.
Proof. unfold emits. rewrite bind_ret. exact (fun E => E). Qed.

Lemma emits_ensureEmptyLine this :
  emits ensureEmptyLine this (if lastLineIsEmpty this then [] else [""]).
Proof.
  unfold emits, ensureEmptyLine. rewrite bind_get.
  destruct (lastLineIsEmpty this); reflexivity.
Qed.

Lemma after_lines_blank ls this :
  after_lines (ls ++ [""]) this = set_lastLineIsEmpty true this.
Proof. unfold after_lines. rewrite last_snoc. reflexivity. Qed.

Lemma emits_writeErr_later H evt e ls this :
  err evt = Some e -> emits (writeErr H evt) (after_lines ls this) (errLines H this e).
Proof. intros E. rewrite <- (errLines_after_lines H ls). apply emits_writeErr, E. Qed.

(** ** Immediate output of single events *)

Section Immediate.

Variable H : Helpers.

(** C10. [writeTestSummary] on a [test-passed] event: a known failure gets
    the error-styled tick and title and never a duration suffix, whatever
    its duration; any other passed test gets the pass-styled tick, the
    title and a suffix that is the styled duration when the duration is
    strictly above 100 and empty otherwise, so that a duration of exactly
    100 gives no suffix.  The log lines follow in both cases. *)
Theorem writeTestSummary_duration_suffix evt this :
  type evt = "test-passed" ->
  (knownFailing evt = true ->
   emits (writeTestSummary H evt) this
     (("  " +:+ colors_error H (figures_tick H) +:+ " "
       +:+ colors_error H (prefixTitle this (testFile evt) (title evt)))
      :: logLines H evt))
  /\ (knownFailing evt = false ->
      exists suffix,
        emits (writeTestSummary H evt) this
          (("  " +:+ colors_pass H (figures_tick H) +:+ " "
            +:+ prefixTitle this (testFile evt) (title evt) +:+ suffix)
           :: logLines H evt)
        /\ (100 < duration evt ->
            suffix = colors_duration H (" (" +:+ prettyMs H (duration evt) +:+ ")"))
        /\ (duration evt <= 100 -> suffix = "")
        /\ (duration evt = 100 -> suffix = "")).
Proof.
  intros T. split; intros K.
  - unfold emits, writeTestSummary. rewrite bind_get, T, K. simpl (_ || _).
    cbv iota. fold (emits). apply emits_cons; [ apply emits_writeLine | apply emits_writeLogs ].
  - exists (if 100 <? duration evt
            then colors_duration H (" (" +:+ prettyMs H (duration evt) +:+ ")")
            else "").
    split; [ | repeat split ].
    + unfold emits, writeTestSummary. rewrite bind_get, T, K. simpl (_ || _).
      cbv iota zeta.
      apply emits_cons; [ apply emits_writeLine | apply emits_writeLogs ].
    + intros D. apply N.ltb_lt in D. rewrite D. reflexivity.
    + intros D. apply N.ltb_ge in D. rewrite D. reflexivity.
    + intros D. rewrite D. reflexivity.
Qed.

(** C9 (amended). An [internal-error] event that carries its error writes
    the cross-mark line naming the file (the generic label when the event
    has no file), the indented summary, the indented stack, and last the
    line [writeLine('\n\n')], that is three newline characters: when the
    stack line has text and does not itself end in a newline the block ends
    with exactly three blank lines.  The blank-line flag is left off. *)
Theorem internal_error_block evt e this :
  type evt = "internal-error" -> err evt = Some e ->
  consumeStateChange H evt this
  = (Normal tt, set_lastLineIsEmpty false this,
     [ Write (line (internalErrorHeading H evt));
       Write (line (indentString H (colors_stack H (summary e)) 2));
       Write (line (indentString H (colors_errorStack H (stack e)) 2));
       Write (newline +:+ newline +:+ newline) ])
  /\ (indentString H (colors_errorStack H (stack e)) 2 <> "" ->
      trailing_newlines (indentString H (colors_errorStack H (stack e)) 2) = 0%nat ->
      trailing_blank_lines (stream_text (written (consumeStateChange H evt) this)) = 3%nat).
Proof.
  intros T E.
  assert (R : consumeStateChange H evt this
              = (Normal tt, set_lastLineIsEmpty false this,
                 [ Write (line (internalErrorHeading H evt));
                   Write (line (indentString H (colors_stack H (summary e)) 2));
                   Write (line (indentString H (colors_errorStack H (stack e)) 2));
                   Write (newline +:+ newline +:+ newline) ])).
  { unfold consumeStateChange, internalErrorHeading. rewrite bind_get, T. cbv zeta.
    cbn [String.eqb Ascii.eqb Bool.eqb orb andb negb].
    unfold err_of. rewrite E.
    destruct (testFile evt) as [file | ]; [ destruct (truthy file) | ]; reflexivity. }
  split; [ exact R | ].
  intros NE Z. unfold written, effects. rewrite R.
  unfold trailing_blank_lines, stream_text, line. simpl.
  rewrite !append_assoc, append_empty_r.
  assert (Last : trailing_newlines
                   (indentString H (colors_errorStack H (stack e)) 2
                    +:+ newline +:+ newline +:+ newline +:+ newline) = 4%nat).
  { rewrite trailing_newlines_text_then; [ reflexivity | exact NE | exact Z | reflexivity ]. }
  assert (Text : (trailing_newlines
                    (indentString H (colors_errorStack H (stack e)) 2
                     +:+ newline +:+ newline +:+ newline +:+ newline)
                  < String.length
                      (indentString H (colors_errorStack H (stack e)) 2
                       +:+ newline +:+ newline +:+ newline +:+ newline))%nat).
  { rewrite Last, length_append.
    destruct (indentString H (colors_errorStack H (stack e)) 2); [ congruence | simpl; lia ]. }
  do 4 (rewrite trailing_newlines_after;
        [ | repeat first [ exact Text | apply text_before_keeps_text ] ]).
  rewrite Last. reflexivity.
Qed.

(** C8 (amended). An [uncaught-exception] or [unhandled-rejection] event
    writes a blank line exactly when the blank-line flag of the reporter is
    off, that is when the last call of [writeLine] was given a line that is
    not empty (what went to the stream otherwise, a worker's chunk or the
    newlines inside a line, is not looked at), then the title line, a blank
    line, the error detail block and a trailing blank line, and leaves the
    flag on; so a second such event right after it writes no blank line of
    its own: it starts with its title line, which is not blank. *)
Theorem exception_block_blank_lines evt file e this :
  type evt = "uncaught-exception" \/ type evt = "unhandled-rejection" ->
  testFile evt = Some file -> err evt = Some e ->
  consumeStateChange H evt this
  = (Normal tt, set_lastLineIsEmpty true this,
     map (fun l => Write (line l))
       ((if lastLineIsEmpty this then [] else [""]) ++ exceptionLines H this evt file e))
  /\ (forall evt' file' e',
        type evt' = "uncaught-exception" \/ type evt' = "unhandled-rejection" ->
        testFile evt' = Some file' -> err evt' = Some e' ->
        written (consumeStateChange H evt') (exec (consumeStateChange H evt) this)
        = map line (exceptionLines H this evt' file' e')
        /\ exceptionTitle H evt' file' <> "").
Proof.
  assert (Block : forall evt file e this,
            type evt = "uncaught-exception" \/ type evt = "unhandled-rejection" ->
            testFile evt = Some file -> err evt = Some e ->
            emits (consumeStateChange H evt) this
              ((if lastLineIsEmpty this then [] else [""])
               ++ exceptionLines H this evt file e)).
  { clear. intros evt file e this T F E.
    unfold emits, consumeStateChange, exceptionLines, exceptionTitle.
    rewrite bind_get. cbv zeta.
    destruct T as [T | T]; rewrite T, F;
      cbn [String.eqb Ascii.eqb Bool.eqb orb andb negb];
      (apply emits_bind; [ apply emits_ensureEmptyLine | ]);
      apply emits_bind_ret;
      (apply emits_cons; [ apply emits_writeLine | ]);
      (apply emits_cons; [ apply emits_writeLine | ]);
      (apply emits_bind; [ | apply emits_writeLine ]);
      rewrite !after_lines_app; apply emits_writeErr_later, E. }
  intros T F E. split.
  - rewrite (Block evt file e this T F E). unfold exceptionLines.
    rewrite !app_assoc, after_lines_blank. reflexivity.
  - intros evt' file' e' T' F' E'. split; [ | discriminate ].
    rewrite (emits_exec _ _ _ (Block evt file e this T F E)).
    rewrite (emits_written _ _ _ (Block evt' file' e' _ T' F' E')).
    unfold exceptionLines. rewrite errLines_after_lines.
    rewrite !app_assoc, after_lines_blank. reflexivity.
Qed.

End Immediate.

Lemma writeTestSummary_duration_suffix_witness :
  type a_passed_test = "test-passed" /\ knownFailing a_passed_test = false
  /\ duration a_passed_test = 100
  /\ written (writeTestSummary plain a_passed_test) a_started_reporter
     = [line "  ✔ adds"]
  /\ written (writeTestSummary plain a_slow_passed_test) a_started_reporter
     = [line "  ✔ multiplies (101ms)"]
  /\ written (writeTestSummary plain a_known_failure) a_started_reporter
     = [line "  ✔ divides"].
Proof.
  split; [ reflexivity | split; [ reflexivity | split; [ reflexivity | ] ] ].
  destruct (writeTestSummary_duration_suffix plain a_passed_test a_started_reporter eq_refl)
    as [_ Quick].
  destruct (Quick eq_refl) as (suffix & E & _ & _ & S).
  destruct (writeTestSummary_duration_suffix plain a_slow_passed_test a_started_reporter
              eq_refl) as [_ Slow].
  destruct (Slow eq_refl) as (suffix' & E' & S' & _).
  destruct (writeTestSummary_duration_suffix plain a_known_failure a_started_reporter
              eq_refl) as [Known _].
  rewrite (emits_written _ _ _ E), (S eq_refl).
  rewrite (emits_written _ _ _ E'), (S' eq_refl).
  rewrite (emits_written _ _ _ (Known eq_refl)).
  repeat split.
Defined.

Lemma internal_error_block_witness :
  type an_internal_error = "internal-error" /\ err an_internal_error = Some boom
  /\ written (consumeStateChange plain an_internal_error) a_started_reporter
     = [ line "  ✖ Internal error when running test.js";
         line "  Error: boom";
         line ("  Error: boom" +:+ newline +:+ "      at test.js:3:1");
         newline +:+ newline +:+ newline ].
Proof.
  split; [ reflexivity | split; [ reflexivity | ] ].
  destruct (internal_error_block plain an_internal_error boom a_started_reporter
              eq_refl eq_refl) as [R _].
  unfold written, effects. rewrite R. reflexivity.
Defined.

Lemma internal_error_ends_with_three_blank_lines :
  trailing_blank_lines
    (stream_text (written (consumeStateChange plain an_internal_error) a_started_reporter))
  <> 2%nat.
Proof. vm_compute. discriminate. Qed.

Lemma exception_block_blank_lines_witness :
  (type an_uncaught_exception = "uncaught-exception"
   \/ type an_uncaught_exception = "unhandled-rejection")
  /\ testFile an_uncaught_exception = Some "test.js"
  /\ err an_uncaught_exception = Some boom
  /\ written (consumeStateChange plain an_unhandled_rejection)
       (exec (consumeStateChange plain an_uncaught_exception) a_started_reporter)
     = [ line "  Unhandled rejection in test.js"; line ""; line "";
         line "  boom"; line "";
         line ("  Error: boom" +:+ newline +:+ "      at test.js:3:1"); line "" ].
Proof.
  split; [ left; reflexivity | split; [ reflexivity | split; [ reflexivity | ] ] ].
  destruct (exception_block_blank_lines plain an_uncaught_exception "test.js" boom
              a_started_reporter (or_introl eq_refl) eq_refl eq_refl) as [_ Next].
  destruct (Next an_unhandled_rejection "test.js" boom (or_intror eq_refl) eq_refl eq_refl)
    as [Second _].
  rewrite Second. reflexivity.
Defined.

Lemma exception_blank_lines_not_by_the_stream :
  trailing_blank_lines
    (stream_text (written (this_consumeStateChange plain an_internal_error)
                    a_started_reporter))
  = 3%nat
  /\ written (this_consumeStateChange plain an_uncaught_exception)
       (exec (this_consumeStateChange plain an_internal_error) a_started_reporter)
     = line ""
       :: map line (exceptionLines plain a_started_reporter an_uncaught_exception
                      "test.js" boom)
  /\ trailing_blank_lines
       (stream_text (written (this_consumeStateChange plain a_bare_exception)
                       a_started_reporter))
     = 4%nat
  /\ hd_error
       (written (this_consumeStateChange plain an_unhandled_rejection)
          (exec (this_consumeStateChange plain a_bare_exception) a_started_reporter))
     = Some (line "  Unhandled rejection in test.js").
Proof. vm_compute. repeat split. Qed.

(** ** Which events [consumeStateChange] survives *)










Section Safety.
Variable H : Helpers.













End Safety.



(** ** Whole runs *)

Lemma map_line_flat_map {A} (g : A -> list string) (l : list A) :
  map line (flat_map g l) = flat_map (fun x => map line (g x)) l.
Proof.
  induction l as [ | x l IH]; simpl; [ reflexivity | ].
  rewrite map_app, IH. reflexivity.
Qed.

Lemma written_after_emits (m k : Js unit) this l :
  emits m this l ->
  written (m ;; k) this = map line l ++ written k (after_lines l this).
Proof.
  unfold emits, written, effects. intros E.
  rewrite (bind_normal _ _ _ _ _ _ E).
  destruct (k (after_lines l this)) as [[r st] tr]. simpl.
  rewrite written_chunks_app. f_equal.
  clear. induction l as [ | x l IH]; simpl; [ reflexivity | f_equal; exact IH ].
Qed.

Lemma written_get (k : Reporter -> Js unit) this :
  written (get ≫= k) this = written (k this) this.
Proof. unfold written, effects. rewrite bind_get. reflexivity. Qed.

Section Runs.
Variable H : Helpers.

Lemma startRun_runs plan this :
  startRun H plan this
  = (Normal tt, started H plan (stream_columns this) (watching this),
     startRun_effects H plan this).
Proof.
  unfold startRun, reset, started, startRun_effects.
  destruct this as [cols watch ff fs miss known flag mat pt prev [k | ] st]; simpl;
    destruct watch, (1 <? length (plan_files plan))%nat, (1 <? plan_runVector plan);
    reflexivity.
Qed.

Lemma reset_runs this :
  exec reset this = allocated (stream_columns this) (watching this).
Proof.
  unfold exec, reset, allocated.
  destruct this as [cols watch ff fs miss known flag mat pt prev [k | ] st]; reflexivity.
Qed.

Lemma this_endRun_emits this :
  Forall has_err (failures this) ->
  written (this_endRun H) this = map line (endRunLines H this)
  /\ returns_normally (this_endRun H) this
  /\ exec (this_endRun H) this = set_lastLineIsEmpty true this.
Proof.
  intros F. pose proof (endRun_emits H this F) as E. unfold this_endRun.
  rewrite written_whileCorked, exec_whileCorked.
  unfold returns_normally. rewrite completion_whileCorked.
  split; [ apply (emits_written _ _ _ E) | ].
  split; [ apply (emits_normal _ _ _ E) | ].
  rewrite (emits_exec _ _ _ E). unfold endRunLines.
  destruct (stats this) as [s | ]; [ | reflexivity ].
  destruct (matching this && (selectedTests s =? 0)); [ reflexivity | ].
  rewrite !app_assoc. apply after_lines_blank.
Qed.

(** C3 (amended). When no [stats] event was consumed during the run,
    [endRun] writes the line saying that no files were found and then one
    blank line, nothing else, and returns normally having touched nothing
    but the blank-line flag. *)
Theorem endRun_without_stats plan evts this0 :
  Forall (fun evt => type evt <> "stats") evts ->
  let this := deliver H evts (exec (startRun H plan) this0) in
  written (this_endRun H) this = [line (noFilesLine H); line ""]
  /\ returns_normally (this_endRun H) this
  /\ exec (this_endRun H) this = set_lastLineIsEmpty true this.
Proof.
  intros F this.
  assert (S : stats this = None).
  { unfold this. rewrite (deliver_stats H _ _ F). unfold exec.
    rewrite startRun_runs. reflexivity. }
  assert (E : emits (endRun H) this [noFilesLine H; ""]).
  { unfold emits, endRun. rewrite bind_get, S.
    apply emits_cons; apply emits_writeLine. }
  unfold this_endRun, returns_normally.
  rewrite written_whileCorked, exec_whileCorked, completion_whileCorked.
  split; [ apply (emits_written _ _ _ E) | ].
  split; [ apply (emits_normal _ _ _ E) | apply (emits_exec _ _ _ E) ].
Qed.

(** C1. The failures of a run are recorded in the order in which their
    [hook-failed] and [test-failed] events arrived, each delivery adding
    one entry, so that an event delivered twice is there twice; and when
    [endRun] reaches its failure section it writes one detail block per
    entry in that same order, between the count lines and known-failures
    list before and the disclaimer and last blank line after. *)
Theorem failures_rendered_in_arrival_order plan evts this0 :
  let this := deliver H evts (exec (startRun H plan) this0) in
  let arrived := List.filter is_failure_event evts in
  failures this = arrived
  /\ (forall s,
        stats this = Some s ->
        (matching this && (selectedTests s =? 0)) = false ->
        Forall has_err arrived ->
        written (this_endRun H) this
        = map line ([""] ++ countLines H this s ++ knownFailuresSection H this s)
          ++ (if (0 <? length arrived)%nat then [line ""] else [])
          ++ flat_map
               (fun evt =>
                  map line (failureBlock H this (last arrived)
                              (shouldWriteFailFastDisclaimer this s) evt))
               arrived
          ++ map line (disclaimerSection H this s ++ [""])).
Proof.
  intros this arrived.
  assert (Fs : failures this = arrived).
  { unfold this. rewrite deliver_failures. unfold exec. rewrite startRun_runs.
    reflexivity. }
  split; [ exact Fs | ].
  intros s S M F.
  rewrite <- Fs in F. destruct (this_endRun_emits this F) as [W _]. rewrite W.
  unfold endRunLines, failuresSection. rewrite S, M, Fs. clearbody arrived.
  rewrite !map_app, <- !app_assoc. do 3 f_equal.
  destruct arrived as [ | evt rest]; [ reflexivity | ].
  cbn [length Nat.ltb Nat.leb]. cbn [map app]. f_equal.
  rewrite map_line_flat_map. reflexivity.
Qed.

Lemma emits_knownFailuresSection this s that :
  emits (if 0 <? passedKnownFailingTests s
         then writeLine "" ;; endRun_knownFailures_loop H this (knownFailures this)
         else mret tt)
        that (knownFailuresSection H this s).
Proof.
  unfold knownFailuresSection. destruct (0 <? passedKnownFailingTests s); [ | apply emits_ret ].
  apply emits_cons; [ apply emits_writeLine | apply emits_knownFailures_loop ].
Qed.

(** Up to the known-failures list [endRun] cannot throw. *)
Lemma endRun_begins this s :
  stats this = Some s -> (matching this && (selectedTests s =? 0)) = false ->
  exists rest,
    written (endRun H) this
    = map line ([""] ++ countLines H this s ++ knownFailuresSection H this s) ++ rest.
Proof.
  intros S M. unfold endRun. rewrite written_get, S, M. cbv zeta.
  rewrite (written_after_emits _ _ _ _ (emits_writeLine "" this)).
  unfold countLines. cbv zeta.
  do 9 (erewrite written_after_emits by apply emits_when).
  erewrite written_after_emits by apply emits_knownFailuresSection.
  eexists. rewrite !map_app, <- !app_assoc. reflexivity.
Qed.

(** What a [test-passed] event with [knownFailing] does when it is
    consumed: it is appended to the known failures and its summary, the
    error-styled line, is written with its logs. *)
Lemma consume_known_failure evt that :
  is_known_failure_event evt = true ->
  consumeStateChange H evt that
  = (Normal tt,
     after_lines (knownFailureSummary H that evt :: logLines H evt)
       (set_knownFailures (knownFailures that ++ [evt]) that),
     map (fun l => Write (line l)) (knownFailureSummary H that evt :: logLines H evt)).
Proof.
  intros E. unfold is_known_failure_event in E.
  apply andb_prop in E. destruct E as [T Kf]. apply String.eqb_eq in T.
  unfold consumeStateChange. rewrite bind_get, T, Kf. cbv zeta.
  cbn [String.eqb Ascii.eqb Bool.eqb orb andb negb].
  assert (W : emits (writeTestSummary H evt)
                (set_knownFailures (knownFailures that ++ [evt]) that)
                (knownFailureSummary H that evt :: logLines H evt)).
  { unfold emits, writeTestSummary, knownFailureSummary. rewrite bind_get, T, Kf.
    cbn [String.eqb Ascii.eqb Bool.eqb orb andb negb].
    apply emits_cons; [ apply emits_writeLine | apply emits_writeLogs ]. }
  unfold emits in W.
  rewrite (bind_normal _ _ _ tt (set_knownFailures (knownFailures that ++ [evt]) that) []
             eq_refl).
  rewrite W. reflexivity.
Qed.

(** C4 (amended). Every [test-passed] event with [knownFailing] is
    recorded, in arrival order, and what [consumeStateChange] writes for it
    is the error-styled summary line, not the pass-styled line of an
    ordinary passed test, followed by its logs.  When [endRun] goes past
    its two early exits, all that it writes is: a blank line, the count
    lines, then, if the snapshot counts at least one passed known failure,
    one blank line and one line per recorded event in arrival order, the
    error-styled prefixed title, then the failure section, the disclaimer
    and a last blank line; when the snapshot counts no passed known failure
    the list and its blank line are not written, whatever was recorded. *)
Theorem known_failures_listed plan evts this0 :
  let this := deliver H evts (exec (startRun H plan) this0) in
  let arrived := List.filter is_known_failure_event evts in
  knownFailures this = arrived
  /\ (forall evt that,
        is_known_failure_event evt = true ->
        consumeStateChange H evt that
        = (Normal tt,
           after_lines
             (("  " +:+ colors_error H (figures_tick H) +:+ " "
               +:+ colors_error H (prefixTitle that (testFile evt) (title evt)))
              :: logLines H evt)
             (set_knownFailures (knownFailures that ++ [evt]) that),
           map (fun l => Write (line l))
             (("  " +:+ colors_error H (figures_tick H) +:+ " "
               +:+ colors_error H (prefixTitle that (testFile evt) (title evt)))
              :: logLines H evt)))
  /\ (forall s,
        stats this = Some s ->
        (matching this && (selectedTests s =? 0)) = false ->
        Forall has_err (failures this) ->
        written (this_endRun H) this
        = map line
            ([""] ++ countLines H this s
             ++ (if 0 <? passedKnownFailingTests s
                 then "" :: map (fun evt =>
                                   "  " +:+ colors_error H
                                            (prefixTitle this (testFile evt) (title evt)))
                              arrived
                 else [])
             ++ failuresSection H this s ++ disclaimerSection H this s ++ [""]))
  /\ (forall s,
        stats this = Some s ->
        (matching this && (selectedTests s =? 0)) = false ->
        exists rest,
          written (this_endRun H) this
          = map line ([""] ++ countLines H this s)
            ++ (if 0 <? passedKnownFailingTests s
                then line ""
                     :: map (fun evt =>
                               line ("  " +:+ colors_error H
                                       (prefixTitle this (testFile evt) (title evt))))
                          arrived
                else [])
            ++ rest).
Proof.
  intros this arrived.
  assert (K : knownFailures this = arrived).
  { unfold this. rewrite deliver_knownFailures. unfold exec. rewrite startRun_runs.
    reflexivity. }
  split; [ exact K | split; [ | split ] ].
  - intros evt that E. apply (consume_known_failure evt that E).
  - intros s S M F. destruct (this_endRun_emits this F) as [W _]. rewrite W.
    unfold endRunLines. rewrite S, M.
    unfold knownFailuresSection, knownFailureLine. rewrite K. reflexivity.
  - intros s S M. destruct (endRun_begins this s S M) as [rest R].
    exists rest. unfold this_endRun. rewrite written_whileCorked, R.
    unfold knownFailuresSection, knownFailureLine. rewrite K.
    rewrite !map_app, <- !app_assoc. do 2 f_equal.
    destruct (0 <? passedKnownFailingTests s); [ | reflexivity ].
    cbn [map app]. rewrite map_map. reflexivity.
Qed.

End Runs.

Lemma known_failures_listed_witness :
  is_known_failure_event a_known_failure = true
  /\ Forall has_err (failures a_run_with_a_known_failure)
  /\ written (consumeStateChange plain a_known_failure) a_started_reporter
     = [line "  ✔ divides"]
  /\ written (this_endRun plain) a_run_with_a_known_failure
     = [ line ""; line "  1 test passed"; line "  1 known failure";
         line ""; line "  divides"; line "" ]
  /\ written (this_endRun plain) a_run_with_an_uncounted_known_failure
     = [ line ""; line "  1 test passed"; line "" ].
Proof.
  assert (F : Forall has_err
                (failures
                   (deliver plain [a_stats_event (a_snapshot 0 1 1 0 1 1); a_known_failure]
                      (exec (startRun plain a_plan) (constructor (Some 80) false))))).
  { vm_compute. constructor. }
  assert (F' : Forall has_err
                 (failures
                    (deliver plain [a_stats_event (a_snapshot 0 1 0 0 1 1); a_known_failure]
                       (exec (startRun plain a_plan) (constructor (Some 80) false))))).
  { vm_compute. constructor. }
  split; [ reflexivity | split; [ exact F | ] ].
  destruct (known_failures_listed plain a_plan
              [a_stats_event (a_snapshot 0 1 1 0 1 1); a_known_failure]
              (constructor (Some 80) false)) as (_ & Summary & Listed & _).
  destruct (known_failures_listed plain a_plan
              [a_stats_event (a_snapshot 0 1 0 0 1 1); a_known_failure]
              (constructor (Some 80) false)) as (_ & _ & Left_out & _).
  split; [ | split ].
  - unfold written, effects.
    rewrite (Summary a_known_failure a_started_reporter eq_refl). reflexivity.
  - unfold a_run_with_a_known_failure, a_started_reporter.
    rewrite (Listed (a_snapshot 0 1 1 0 1 1) eq_refl eq_refl F).
    vm_compute. reflexivity.
  - unfold a_run_with_an_uncounted_known_failure, a_started_reporter.
    rewrite (Left_out (a_snapshot 0 1 0 0 1 1) eq_refl eq_refl F').
    vm_compute. reflexivity.
Defined.

Lemma uncounted_known_failure_not_listed :
  knownFailures a_run_with_an_uncounted_known_failure = [a_known_failure]
  /\ written (this_endRun plain) a_run_with_an_uncounted_known_failure
     = [line ""; line "  1 test passed"; line ""]
  /\ ~ In (line (knownFailureLine plain a_run_with_an_uncounted_known_failure
                   a_known_failure))
          (written (this_endRun plain) a_run_with_an_uncounted_known_failure).
Proof.
  assert (W : written (this_endRun plain) a_run_with_an_uncounted_known_failure
              = [line ""; line "  1 test passed"; line ""]).
  { vm_compute. reflexivity. }
  split; [ vm_compute; reflexivity | ]. split; [ exact W | ].
  rewrite W. vm_compute. intros [E | [E | [E | []]]]; discriminate E.
Qed.

Lemma failures_rendered_in_arrival_order_witness :
  Forall has_err [a_failed_test; another_failed_test]
  /\ failures a_run_with_two_failures = [a_failed_test; another_failed_test]
  /\ written (this_endRun plain) a_run_with_two_failures
     = map line
         ([""; "  2 tests failed"; ""]
          ++ failureLines plain a_run_with_two_failures a_failed_test
          ++ [""; ""; ""]
          ++ failureLines plain a_run_with_two_failures another_failed_test
          ++ [""]).
Proof.
  assert (F : Forall has_err [a_failed_test; another_failed_test]).
  { repeat constructor; discriminate. }
  split; [ exact F | ].
  destruct (failures_rendered_in_arrival_order plain a_plan
              [a_stats_event (a_snapshot 2 0 0 0 1 1); a_failed_test; another_failed_test]
              (constructor (Some 80) false)) as [Fs W].
  split; [ exact Fs | ].
  unfold a_run_with_two_failures, a_started_reporter.
  rewrite (W (a_snapshot 2 0 0 0 1 1) eq_refl eq_refl F).
  vm_compute. reflexivity.
Defined.

Lemma endRun_without_stats_witness :
  Forall (fun evt => type evt <> "stats") [a_passed_test]
  /\ written (this_endRun plain) (deliver plain [a_passed_test] a_started_reporter)
     = [line "  ✖ Couldn't find any files to test"; line ""].
Proof.
  assert (F : Forall (fun evt => type evt <> "stats") [a_passed_test]).
  { repeat constructor. discriminate. }
  split; [ exact F | ].
  apply (endRun_without_stats plain a_plan [a_passed_test] (constructor (Some 80) false) F).
Defined.

Lemma endRun_without_stats_writes_a_blank_line_too :
  written (this_endRun plain) a_started_reporter <> [line (noFilesLine plain)].
Proof. vm_compute. intros E. discriminate E. Qed.

(** ** The spacing of the failure blocks *)

Section Spacing.
Variable H : Helpers.

Lemma not_same_object_refl evt : not_same_object evt (Some evt) = false.
Proof. unfold not_same_object. rewrite Nat.eqb_refl. reflexivity. Qed.

Lemma not_same_object_other evt lastFailure :
  obj_id evt <> obj_id lastFailure -> not_same_object evt (Some lastFailure) = true.
Proof.
  intros NE. unfold not_same_object.
  destruct (Nat.eqb_spec (obj_id evt) (obj_id lastFailure)); [ contradiction | reflexivity ].
Qed.

Lemma separated_by_snoc sep (blocks : list (list string)) block :
  separated_by sep (blocks ++ [block])
  = flat_map (fun b => b ++ sep) blocks ++ block.
Proof.
  induction blocks as [ | b rest IH]; [ reflexivity | ].
  change ((b :: rest) ++ [block]) with (b :: (rest ++ [block])).
  cbn [separated_by flat_map]. rewrite IH, <- !app_assoc.
  destruct (rest ++ [block]) eqn:E; [ | reflexivity ].
  destruct rest; discriminate E.
Qed.

(** With the last object recorded once, the loop of [endRun] puts three
    blank lines between the blocks and, when the disclaimer follows, after
    the last one. *)
Lemma failure_blocks_spaced this disclaimer l :
  l <> [] -> last_recorded_once l ->
  flat_map (failureBlock H this (last l) disclaimer) l
  = separated_by three_blank_lines (map (failureLines H this) l)
    ++ (if disclaimer then three_blank_lines else []).
Proof.
  intros NE Once. destruct (exists_last NE) as (earlier & lastFailure & ->).
  specialize (Once earlier lastFailure eq_refl).
  rewrite last_snoc, map_app, flat_map_app. cbn [map flat_map].
  rewrite separated_by_snoc, app_nil_r.
  unfold failureBlock at 2. rewrite not_same_object_refl. cbn [orb].
  rewrite <- app_assoc. f_equal. clear NE.
  induction Once as [ | evt rest Other Once IH]; [ reflexivity | ].
  cbn [map flat_map]. rewrite IH. f_equal.
  unfold failureBlock. rewrite (not_same_object_other _ _ Other). reflexivity.
Qed.

(** C7. In a run whose events are each consumed once, so that the failure
    object recorded last was not also recorded earlier, when at least one
    failure was recorded [endRun] writes one blank line before the first
    failure block, exactly three blank lines between consecutive blocks,
    and three blank lines after the last block exactly when the fail-fast
    disclaimer is about to be written. *)
Theorem failure_blocks_spacing this s :
  stats this = Some s ->
  (matching this && (selectedTests s =? 0)) = false ->
  failures this <> [] ->
  Forall has_err (failures this) ->
  last_recorded_once (failures this) ->
  written (this_endRun H) this
  = map line ([""] ++ countLines H this s ++ knownFailuresSection H this s
              ++ spaced_failures H this s
              ++ disclaimerSection H this s ++ [""]).
Proof.
  intros S M NE F Once. destruct (this_endRun_emits H this F) as [W _]. rewrite W.
  unfold endRunLines, failuresSection, spaced_failures. rewrite S, M.
  rewrite (failure_blocks_spaced _ _ _ NE Once).
  destruct (failures this) as [ | evt rest]; [ congruence | ]. reflexivity.
Qed.

End Spacing.

Lemma failure_blocks_spacing_witness :
  failures a_run_with_two_failures <> []
  /\ written (this_endRun plain) a_run_with_two_failures
     = map line
         ([""; "  2 tests failed"; ""]
          ++ failureLines plain a_run_with_two_failures a_failed_test
          ++ [""; ""; ""]
          ++ failureLines plain a_run_with_two_failures another_failed_test
          ++ [""]).
Proof.
  assert (NE : failures a_run_with_two_failures <> []).
  { vm_compute. discriminate. }
  split; [ exact NE | ].
  rewrite (failure_blocks_spacing plain a_run_with_two_failures (a_snapshot 2 0 0 0 1 1)
             eq_refl eq_refl NE).
  - vm_compute. reflexivity.
  - vm_compute. repeat constructor; discriminate.
  - intros earlier lastFailure E.
    change (failures a_run_with_two_failures) with ([a_failed_test] ++ [another_failed_test]) in E.
    apply app_inj_tail in E. destruct E as [<- <-].
    repeat constructor. vm_compute. discriminate.
Defined.

(** Were the status emitter to hand one failure object over twice, which
    a run does not do, the loop would take the earlier occurrence for the
    last block and write no separator after it. *)
Lemma repeated_failure_object_not_spaced :
  written (this_endRun plain) a_run_with_a_repeated_failure
  = map line
      ([""; "  2 tests failed"; ""]
       ++ failureLines plain a_run_with_a_repeated_failure a_failed_test
       ++ failureLines plain a_run_with_a_repeated_failure a_failed_test
       ++ [""])
  /\ written (this_endRun plain) a_run_with_a_repeated_failure
     <> map line
          ([""] ++ countLines plain a_run_with_a_repeated_failure (a_snapshot 2 0 0 0 1 1)
           ++ knownFailuresSection plain a_run_with_a_repeated_failure (a_snapshot 2 0 0 0 1 1)
           ++ spaced_failures plain a_run_with_a_repeated_failure (a_snapshot 2 0 0 0 1 1)
           ++ disclaimerSection plain a_run_with_a_repeated_failure (a_snapshot 2 0 0 0 1 1)
           ++ [""]).
Proof.
  split; [ vm_compute; reflexivity | ].
  vm_compute. intros E. discriminate E.
Qed.

(** ** The fail-fast disclaimer *)

Lemma has_char_append c a b : has_char c (a +:+ b) = has_char c a || has_char c b.
Proof.
  induction a as [ | x a IH]; [ reflexivity | ].
  rewrite append_cons. simpl. rewrite IH, orb_assoc. reflexivity.
Qed.

Lemma startsWith_has_char c sub s :
  startsWith (String c sub) s = true -> has_char c s = true.
Proof.
  destruct s as [ | x s]; simpl; [ discriminate | ].
  intros E. apply andb_prop in E. destruct E as [E _]. rewrite E. reflexivity.
Qed.

(** A text that holds a string holds its first character. *)
Lemma includes_has_char c sub s :
  includes (String c sub) s = true -> has_char c s = true.
Proof.
  induction s as [ | x s IH]; [ discriminate | ].
  intros E. cbn [includes] in E. apply orb_prop in E. destruct E as [E | E].
  - apply (startsWith_has_char _ _ _ E).
  - simpl. rewrite (IH E). apply orb_true_r.
Qed.

Lemma startsWith_append sub rest : startsWith sub (sub +:+ rest) = true.
Proof.
  induction sub as [ | x sub IH]; [ reflexivity | ].
  rewrite append_cons. simpl. rewrite Ascii.eqb_refl, IH. reflexivity.
Qed.

Lemma includes_here sub rest : includes sub (sub +:+ rest) = true.
Proof.
  destruct (sub +:+ rest) eqn:E; simpl; rewrite <- E, startsWith_append; reflexivity.
Qed.

Lemma includes_later sub a b : includes sub b = true -> includes sub (a +:+ b) = true.
Proof.
  intros E. induction a as [ | x a IH]; [ exact E | ].
  rewrite append_cons. cbn [includes]. rewrite IH. apply orb_true_r.
Qed.

Lemma no_comma_in_digits d : has_char ","%char (NilEmpty.string_of_uint d) = false.
Proof. induction d; simpl; try rewrite IHd; reflexivity. Qed.

Lemma no_comma_in_number n : has_char ","%char (num_to_string n) = false.
Proof.
  unfold num_to_string, NilZero.string_of_uint.
  destruct (N.to_uint n); try reflexivity; apply no_comma_in_digits.
Qed.

Lemma no_comma_in_tests_clause n : has_char ","%char (tests_skipped_clause n) = false.
Proof.
  unfold tests_skipped_clause. rewrite !has_char_append, no_comma_in_number.
  destruct (n =? 1); reflexivity.
Qed.

Lemma no_comma_in_files_clause k verb :
  has_char ","%char (files_skipped_clause k verb) = false.
Proof.
  unfold files_skipped_clause. rewrite !has_char_append, no_comma_in_number.
  destruct (k =? 1), verb; reflexivity.
Qed.

Lemma disclaimer_as_worded H s :
  plur_rule H -> disclaimer_remaining H s = disclaimer_wording s.
Proof.
  intros Rule.
  unfold disclaimer_remaining, disclaimer_wording, tests_skipped_clause,
    files_skipped_clause.
  rewrite !Rule. cbv zeta.
  destruct (N.ltb_spec 0 (remainingTests s)) as [Pos | Zero].
  - assert (NZ : (remainingTests s =? 0) = false) by (apply N.eqb_neq; lia).
    rewrite NZ.
    destruct (finishedWorkers s <? files s);
      change ("" +:+ ?x) with x; rewrite ?append_assoc, ?append_empty_r; reflexivity.
  - assert (Z : (remainingTests s =? 0) = true) by (apply N.eqb_eq; lia).
    rewrite Z.
    destruct (finishedWorkers s <? files s);
      change ("" +:+ ?x) with x; rewrite ?append_assoc, ?append_empty_r; reflexivity.
Qed.

Section Disclaimer.
Variable H : Helpers.

(** C6. Given the rule of [plur] (the singular exactly for a count of
    one): with fail-fast on, two tests remaining and three of five files
    finished, the last line but one of [endRun] is the disclaimer with the
    text given; the text built by [endRun] is always the one the
    specification words, in which test, file and was are singular exactly
    for a count of one; and it holds the joining clause exactly when both
    tests remain and files were left out. *)
Theorem fail_fast_disclaimer_wording :
  plur_rule H ->
  (forall this s,
      stats this = Some s ->
      (matching this && (selectedTests s =? 0)) = false ->
      Forall has_err (failures this) ->
      failFastEnabled this = true ->
      remainingTests s = 2 -> files s = 5 -> finishedWorkers s = 3 ->
      exists before,
        written (this_endRun H) this
        = before
          ++ [ line ("  " +:+ colors_information H
                       "`--fail-fast` is on. At least 2 tests were skipped, as well as 2 test files.");
               line "" ])
  /\ (forall s, disclaimer_remaining H s = disclaimer_wording s)
  /\ (forall s,
        includes ", as well as " (disclaimer_remaining H s) = true
        <-> 0 < remainingTests s /\ finishedWorkers s < files s).
Proof.
  intros Rule. split; [ | split ].
  - intros this s S M F FF R Fi Fw.
    destruct (this_endRun_emits H this F) as [W _]. rewrite W.
    unfold endRunLines. rewrite S, M.
    exists (map line ([""] ++ countLines H this s ++ knownFailuresSection H this s
                      ++ failuresSection H this s)).
    rewrite !map_app, <- !app_assoc. do 4 f_equal.
    unfold disclaimerSection, shouldWriteFailFastDisclaimer, disclaimerLine.
    rewrite (disclaimer_as_worded H s Rule). unfold disclaimer_wording.
    rewrite FF, R, Fi, Fw. reflexivity.
  - intros s. apply disclaimer_as_worded, Rule.
  - intros s. rewrite (disclaimer_as_worded H s Rule). unfold disclaimer_wording. cbv zeta.
    destruct (N.ltb_spec 0 (remainingTests s)) as [Pos | Zero];
      destruct (N.ltb_spec (finishedWorkers s) (files s)) as [Left | Done].
    + split; [ intros _; split; assumption | intros _ ].
      apply includes_later, includes_here.
    + split; [ intros E | intros [_ L]; lia ].
      apply includes_has_char in E. rewrite no_comma_in_tests_clause in E. discriminate E.
    + split; [ intros E | intros [P _]; lia ].
      apply includes_has_char in E. rewrite no_comma_in_files_clause in E. discriminate E.
    + split; [ intros E; discriminate E | intros [P _]; lia ].
Qed.

End Disclaimer.

Lemma fail_fast_disclaimer_wording_witness :
  plur_rule plain
  /\ stats a_fail_fast_run = Some (a_snapshot 1 0 0 2 5 3)
  /\ failFastEnabled a_fail_fast_run = true
  /\ last (written (this_endRun plain) a_fail_fast_run) = Some (line "")
  /\ In (line "  `--fail-fast` is on. At least 2 tests were skipped, as well as 2 test files.")
        (written (this_endRun plain) a_fail_fast_run).
Proof.
  assert (Rule : plur_rule plain) by (intros word plural count; reflexivity).
  split; [ exact Rule | split; [ reflexivity | split; [ reflexivity | ] ] ].
  destruct (fail_fast_disclaimer_wording plain Rule) as [Example _].
  destruct (Example a_fail_fast_run (a_snapshot 1 0 0 2 5 3) eq_refl eq_refl)
    as [before W]; try reflexivity.
  - repeat constructor. discriminate.
  - rewrite W. split.
    + rewrite last_app. reflexivity.
    + apply in_or_app. right. left. reflexivity.
Defined.

(** * Further properties of the two files *)

(** ** Corking *)

Lemma writes_only_ret {A} (a : A) : writes_only (mret a : Js A).
Proof. intros this. reflexivity. Qed.

Lemma writes_only_get : writes_only get.
Proof. intros this. reflexivity. Qed.

Lemma writes_only_throw {A} e : writes_only (throw e : Js A).
Proof. intros this. reflexivity. Qed.

Lemma writes_only_modify f : writes_only (modify f).
Proof. intros this. reflexivity. Qed.

Lemma writes_only_write chunk : writes_only (perform (Write chunk)).
Proof. intros this. reflexivity. Qed.

Lemma writes_only_bind {A B} (m : Js A) (k : A -> Js B) :
  writes_only m -> (forall a, writes_only (k a)) -> writes_only (m ≫= k).
Proof.
  intros Hm Hk this. specialize (Hm this). unfold written, effects in *.
  destruct (m this) as [[[a | e] st1] tr1] eqn:E; simpl in Hm.
  - rewrite (bind_normal _ _ _ _ _ _ E). specialize (Hk a st1).
    unfold written, effects in Hk.
    destruct (k a st1) as [[r st2] tr2]. simpl in *.
    rewrite written_chunks_app, map_app, <- Hm, <- Hk. reflexivity.
  - rewrite (bind_throw _ _ _ _ _ _ E). exact Hm.
Qed.

Ltac writes_only_step :=
  match goal with
  | |- writes_only (mbind _ _) => apply writes_only_bind; [ | intros ? ]
  | |- writes_only (mret _) => apply writes_only_ret
  | |- writes_only get => apply writes_only_get
  | |- writes_only (throw _) => apply writes_only_throw
  | |- writes_only (modify _) => apply writes_only_modify
  | |- writes_only (perform (Write _)) => apply writes_only_write
  | |- writes_only (if ?c then _ else _) => destruct c
  | |- writes_only (match ?x with _ => _ end) => destruct x
  | |- writes_only (let _ := _ in _) => cbv zeta
  end.

Ltac writes_only_tac :=
  unfold writeLine, ensureEmptyLine, stream_write, path_relative, err_of, member_of;
  repeat writes_only_step.

Section Corking.

Variable H : Helpers.

Lemma writes_only_writeErr evt : writes_only (writeErr H evt).
Proof. unfold writeErr. writes_only_tac. Qed.

Lemma writes_only_writeLogs evt : writes_only (writeLogs H evt).
Proof.
  unfold writeLogs. destruct (logs evt) as [l | ]; [ | apply writes_only_ret ].
  induction l as [ | log rest IH]; simpl; [ apply writes_only_ret | ].
  apply writes_only_bind; [ writes_only_tac | intros _; exact IH ].
Qed.

Lemma writes_only_writeTestSummary evt : writes_only (writeTestSummary H evt).
Proof.
  unfold writeTestSummary.
  repeat first [ apply writes_only_writeLogs | progress writes_only_tac ].
Qed.

Lemma writes_only_writeFailure evt : writes_only (writeFailure H evt).
Proof.
  unfold writeFailure.
  repeat first
    [ apply writes_only_writeLogs | apply writes_only_writeErr | progress writes_only_tac ].
Qed.

Lemma writes_only_consumeStateChange evt : writes_only (consumeStateChange H evt).
Proof.
  unfold consumeStateChange.
  repeat first
    [ apply writes_only_writeTestSummary | apply writes_only_writeErr
    | progress writes_only_tac ].
Qed.

Lemma writes_only_failures_loop lastFailure disclaimer l :
  writes_only (endRun_failures_loop H lastFailure disclaimer l).
Proof.
  induction l as [ | evt rest IH]; simpl; [ apply writes_only_ret | ].
  apply writes_only_bind; [ apply writes_only_writeFailure | intros _ ].
  apply writes_only_bind; [ writes_only_tac | intros _; exact IH ].
Qed.

Lemma writes_only_knownFailures_loop that l :
  writes_only (endRun_knownFailures_loop H that l).
Proof.
  induction l as [ | evt rest IH]; simpl; [ apply writes_only_ret | ].
  apply writes_only_bind; [ writes_only_tac | intros _; exact IH ].
Qed.

Lemma writes_only_endRun : writes_only (endRun H).
Proof.
  unfold endRun.
  repeat first
    [ apply writes_only_failures_loop | apply writes_only_knownFailures_loop
    | progress writes_only_tac ].
Qed.

(** X1. Whatever the event and also when the call throws, the corked
    [consumeStateChange] does to the outside world exactly this: it corks
    the stream, writes its chunks, and uncorks the stream; it never touches
    the event subscription.  The same holds of the corked [endRun]. *)
Theorem entry_points_cork_write_uncork evt this :
  effects (this_consumeStateChange H evt) this
  = [Cork] ++ map Write (written (consumeStateChange H evt) this) ++ [Uncork]
  /\ effects (this_endRun H) this
     = [Cork] ++ map Write (written (endRun H) this) ++ [Uncork].
Proof.
  unfold this_consumeStateChange, this_endRun. rewrite !effects_whileCorked.
  rewrite (writes_only_consumeStateChange evt this), (writes_only_endRun this).
  split; reflexivity.
Qed.

End Corking.

(** ** What events leave behind *)

Section Bookkeeping.

Variable H : Helpers.

Lemma emits_exception evt file e this :
  type evt = "uncaught-exception" \/ type evt = "unhandled-rejection" ->
  testFile evt = Some file -> err evt = Some e ->
  emits (consumeStateChange H evt) this
    ((if lastLineIsEmpty this then [] else [""]) ++ exceptionLines H this evt file e).
Proof.
  intros T F E.
  unfold emits, consumeStateChange, exceptionLines, exceptionTitle.
  rewrite bind_get. cbv zeta.
  destruct T as [T | T]; rewrite T, F;
    cbn [String.eqb Ascii.eqb Bool.eqb orb andb negb];
    (apply emits_bind; [ apply emits_ensureEmptyLine | ]);
    apply emits_bind_ret;
    (apply emits_cons; [ apply emits_writeLine | ]);
    (apply emits_cons; [ apply emits_writeLine | ]);
    (apply emits_bind; [ | apply emits_writeLine ]);
    rewrite !after_lines_app; apply emits_writeErr_later, E.
Qed.

(** X2. A [worker-stdout] or [worker-stderr] event hands its chunk to the
    stream as it is and leaves the object untouched, the blank-line flag
    included: the reporter does not look at what the chunk ends with, so an
    uncaught exception that follows writes the lines it would have written
    had the chunk not been there. *)
Theorem worker_output_passes_through evt this :
  type evt = "worker-stdout" \/ type evt = "worker-stderr" ->
  consumeStateChange H evt this = (Normal tt, this, [Write (chunk evt)])
  /\ forall next,
       written (consumeStateChange H next) (exec (this_consumeStateChange H evt) this)
       = written (consumeStateChange H next) this.
Proof.
  intros T.
  assert (R : consumeStateChange H evt this = (Normal tt, this, [Write (chunk evt)])).
  { unfold consumeStateChange. rewrite bind_get. cbv zeta.
    destruct T as [T | T]; rewrite T; reflexivity. }
  split; [ exact R | ].
  intros next. unfold this_consumeStateChange. rewrite exec_whileCorked.
  unfold exec. rewrite R. reflexivity.
Qed.

Lemma configuration_record_event evt this :
  same_configuration (record_event evt this) this.
Proof.
  unfold record_event, same_configuration.
  repeat match goal with |- context [if ?c then _ else _] => destruct c end;
    repeat split.
Qed.

Lemma missing_record_event evt file this :
  file ∈ filesWithMissingAvaImports this ->
  file ∈ filesWithMissingAvaImports (record_event evt this).
Proof.
  intros In. unfold record_event.
  repeat match goal with |- context [if ?c then _ else _] => destruct c end;
    simpl; try exact In.
  apply elem_of_union_r, In.
Qed.

Lemma missing_deliver evts file this :
  file ∈ filesWithMissingAvaImports this ->
  file ∈ filesWithMissingAvaImports (deliver H evts this).
Proof.
  revert this. induction evts as [ | evt rest IH]; intros this In; simpl; [ exact In | ].
  apply IH. destruct (deliver_records H evt this) as [b ->].
  apply (missing_record_event evt file this In).
Qed.

Lemma configuration_deliver evts this :
  same_configuration (deliver H evts this) this.
Proof.
  revert this. induction evts as [ | evt rest IH]; intros this; simpl.
  - repeat split.
  - destruct (deliver_records H evt this) as [b ->].
    destruct (IH (set_lastLineIsEmpty b (record_event evt this)))
      as (C1 & C2 & C3 & C4 & C5 & C6 & C7).
    destruct (configuration_record_event evt this) as (D1 & D2 & D3 & D4 & D5 & D6 & D7).
    unfold same_configuration.
    rewrite C1, C2, C3, C4, C5, C6, C7. simpl.
    rewrite D1, D2, D3, D4, D5, D6, D7. repeat split.
Qed.

Lemma stats_record_event_latest evt this :
  stats (record_event evt this)
  = if String.eqb (type evt) "stats" then evt_stats evt else stats this.
Proof.
  unfold record_event, is_failure_event, is_known_failure_event.
  destruct (String.eqb_spec (type evt) "stats") as [T | ?].
  - rewrite T. reflexivity.
  - repeat match goal with |- context [if ?c then _ else _] => destruct c end; reflexivity.
Qed.

(** X3. The snapshot is replaced by every [stats] event: after any
    sequence of events the object holds the payload of the last [stats]
    event delivered, whether or not an earlier snapshot was there, and a
    [stats] event without payload leaves the object without snapshot. *)
Theorem stats_last_snapshot_wins evts this :
  stats (deliver H evts this) = latest_stats evts (stats this).
Proof.
  revert this. induction evts as [ | evt rest IH]; intros this; simpl; [ reflexivity | ].
  destruct (deliver_records H evt this) as [b ->].
  rewrite IH. change (stats (set_lastLineIsEmpty b ?x)) with (stats x).
  rewrite stats_record_event_latest. reflexivity.
Qed.

(** X4. Once a [missing-ava-import] event was consumed for a file, and
    whatever events followed, a [worker-failed] or [worker-finished] event
    for that file writes nothing, changes nothing and returns normally,
    also when no snapshot holds stats for the file. *)
Theorem missing_import_silences_worker_events flagged evts evt this :
  type flagged = "missing-ava-import" ->
  type evt = "worker-failed" \/ type evt = "worker-finished" ->
  testFile evt = testFile flagged ->
  consumeStateChange H evt (deliver H (flagged :: evts) this)
  = (Normal tt, deliver H (flagged :: evts) this, []).
Proof.
  intros Tf T F.
  assert (M : has_missing_import (deliver H (flagged :: evts) this) evt = true).
  { unfold has_missing_import. apply bool_decide_eq_true. simpl.
    apply missing_deliver. destruct (deliver_records H flagged this) as [b ->].
    unfold record_event, is_failure_event. rewrite Tf, F. simpl.
    apply elem_of_union_l, elem_of_singleton. reflexivity. }
  unfold consumeStateChange. rewrite bind_get. cbv zeta.
  destruct T as [T | T]; rewrite T, M;
    cbn [String.eqb Ascii.eqb Bool.eqb orb andb negb];
    rewrite ?andb_false_r; reflexivity.
Qed.

(** X5. What [startRun] takes from the plan stays for the whole run: after
    any events, throwing ones included, the fail-fast flag, the match flag
    and the count of previous failures are the plan's, the title prefixer
    is the one chosen at the start (the prefixing one in watch mode or with
    more than one file, the identity otherwise), the listener handle is
    that of the plan's status, and the stream and watch flag are those the
    reporter was built with. *)
Theorem run_configuration_is_fixed plan evts this0 :
  same_configuration (deliver H evts (exec (startRun H plan) this0))
    (started H plan (stream_columns this0) (watching this0)).
Proof.
  pose proof (configuration_deliver evts (exec (startRun H plan) this0)) as C.
  unfold exec in *. rewrite startRun_runs in *. exact C.
Qed.

End Bookkeeping.

Lemma worker_output_passes_through_witness :
  (type a_stdout_chunk = "worker-stdout" \/ type a_stdout_chunk = "worker-stderr")
  /\ written (consumeStateChange plain a_stdout_chunk) a_started_reporter = ["hello"]
  /\ written (consumeStateChange plain an_uncaught_exception)
       (exec (this_consumeStateChange plain a_stdout_chunk) a_started_reporter)
     = map line (exceptionLines plain a_started_reporter an_uncaught_exception
                   "test.js" boom).
Proof.
  split; [ left; reflexivity | ].
  destruct (worker_output_passes_through plain a_stdout_chunk a_started_reporter
              (or_introl eq_refl)) as [R Next].
  split.
  - unfold written, effects. rewrite R. reflexivity.
  - rewrite Next. vm_compute. reflexivity.
Defined.

Lemma missing_import_silences_worker_events_witness :
  type a_missing_import = "missing-ava-import"
  /\ (type a_worker_failed = "worker-failed" \/ type a_worker_failed = "worker-finished")
  /\ testFile a_worker_failed = testFile a_missing_import
  /\ written (consumeStateChange plain a_worker_failed)
       (deliver plain [a_missing_import; a_passed_test] a_started_reporter)
     = []
  /\ written (consumeStateChange plain a_worker_failed) a_started_reporter
     = [line "  ✖ test.js exited due to "].
Proof.
  split; [ reflexivity | split; [ left; reflexivity | split; [ reflexivity | ] ] ].
  split; [ | vm_compute; reflexivity ].
  unfold written, effects.
  rewrite (missing_import_silences_worker_events plain a_missing_import [a_passed_test]
             a_worker_failed a_started_reporter eq_refl (or_introl eq_refl) eq_refl).
  reflexivity.
Defined.

(** ** Error paths and repeated calls *)

Lemma completion_after_emits (m k : Js unit) this l :
  emits m this l -> completion (m ;; k) this = completion k (after_lines l this).
Proof.
  unfold emits, completion. intros E. rewrite (bind_normal _ _ _ _ _ _ E).
  destruct (k (after_lines l this)) as [[r st] tr]. reflexivity.
Qed.

Lemma completion_throw_bind {A B} (m : Js A) (k : A -> Js B) this e :
  completion m this = Throw e -> completion (m ≫= k) this = Throw e.
Proof.
  unfold completion. intros E.
  destruct (m this) as [[[a | e'] st1] tr1] eqn:Em; simpl in E; [ discriminate | ].
  rewrite (bind_throw _ _ _ _ _ _ Em). simpl. congruence.
Qed.

Lemma completion_get (k : Reporter -> Js unit) this :
  completion (get ≫= k) this = completion (k this) this.
Proof. unfold completion. rewrite bind_get. reflexivity. Qed.

Lemma whileCorked_runs (m : Js unit) this r st tr :
  m this = (r, st, tr) -> whileCorked m this = (r, st, [Cork] ++ tr ++ [Uncork]).
Proof.
  intros E. unfold whileCorked, try_finally, perform, mbind, Js_bind, js_bind.
  rewrite E. destruct r; reflexivity.
Qed.

Section ErrorPaths.

Variable H : Helpers.

Lemma writeErr_throws evt this :
  err evt = None -> completion (writeErr H evt) this = Throw undefined_err.
Proof.
  intros E. unfold writeErr. rewrite completion_get. unfold err_of. rewrite E.
  reflexivity.
Qed.

Lemma writeFailure_throws evt this :
  err evt = None -> completion (writeFailure H evt) this = Throw undefined_err.
Proof.
  intros E. unfold writeFailure. rewrite completion_get.
  rewrite (completion_after_emits _ _ _ _ (emits_writeLine _ this)).
  rewrite (completion_after_emits _ _ _ _ (emits_writeLogs H evt _)).
  rewrite (completion_after_emits _ _ _ _ (emits_writeLine "" _)).
  apply writeErr_throws, E.
Qed.

Lemma failures_loop_throws lastFailure disclaimer l this :
  Exists (fun evt => err evt = None) l ->
  completion (endRun_failures_loop H lastFailure disclaimer l) this = Throw undefined_err.
Proof.
  intros Ex. revert this. induction l as [ | evt rest IH]; intros this.
  - inversion Ex.
  - simpl. destruct (err evt) as [e | ] eqn:E.
    + assert (Later : Exists (fun evt => err evt = None) rest).
      { inversion Ex as [? ? Bad | ]; [ congruence | assumption ]. }
      assert (Has : has_err evt) by (unfold has_err; congruence).
      rewrite (completion_after_emits _ _ _ _ (emits_writeFailure H evt this Has)).
      destruct (not_same_object evt lastFailure || disclaimer).
      * erewrite completion_after_emits;
          [ apply (IH Later)
          | apply emits_cons; [ apply emits_writeLine | ];
            apply emits_cons; apply emits_writeLine ].
      * rewrite (completion_after_emits _ _ _ _ (emits_ret _)). apply (IH Later).
    + apply completion_throw_bind, writeFailure_throws, E.
Qed.

(** X6. A failure event whose payload lacks its error is still recorded:
    [consumeStateChange] appends it to the failures, then throws before any
    line is written, the stream being uncorked all the same.  From then on
    an [endRun] that gets to its failure section throws too. *)
Theorem failure_without_err_is_recorded_then_throws evt this :
  is_failure_event evt = true -> err evt = None ->
  this_consumeStateChange H evt this
  = (Throw undefined_err, set_failures (failures this ++ [evt]) this, [Cork; Uncork])
  /\ forall that s,
       In evt (failures that) ->
       stats that = Some s ->
       (matching that && (selectedTests s =? 0)) = false ->
       completion (this_endRun H) that = Throw undefined_err.
Proof.
  intros T E. split.
  - unfold is_failure_event in T. unfold this_consumeStateChange.
    apply (whileCorked_runs _ _ _ _ []).
    unfold consumeStateChange, writeTestSummary, err_of. rewrite bind_get, E.
    destruct (String.eqb_spec (type evt) "hook-failed") as [T1 | ?].
    + rewrite T1. reflexivity.
    + simpl in T. apply String.eqb_eq in T. rewrite T. reflexivity.
  - intros that s In S M. unfold this_endRun. rewrite completion_whileCorked.
    unfold endRun. rewrite completion_get, S, M. cbv zeta.
    rewrite (completion_after_emits _ _ _ _ (emits_writeLine "" that)).
    do 9 (erewrite completion_after_emits by apply emits_when).
    erewrite completion_after_emits by apply emits_knownFailuresSection.
    apply completion_throw_bind.
    destruct (failures that) as [ | first rest] eqn:Fs; [ destruct In | ].
    cbn [length Nat.ltb Nat.leb].
    rewrite (completion_after_emits _ _ _ _ (emits_writeLine "" _)).
    apply failures_loop_throws, List.Exists_exists. exists evt. split; [ exact In | exact E ].
Qed.

(** X7. With a match filter on and a snapshot that counts no selected
    test, [endRun] writes the line saying that no matching tests were found
    and one blank line, nothing else, and returns normally whatever the
    failures recorded, those without error included. *)
Theorem endRun_without_matching_tests this s :
  stats this = Some s -> matching this = true -> selectedTests s = 0 ->
  this_endRun H this
  = (Normal tt, set_lastLineIsEmpty true this,
     [Cork; Write (line (noMatchingTestsLine H)); Write (line ""); Uncork]).
Proof.
  intros S M Z. unfold this_endRun.
  apply (whileCorked_runs _ _ _ _ [_; _]).
  unfold endRun, noMatchingTestsLine. rewrite bind_get, S, M, Z. reflexivity.
Qed.

Lemma flag_only_endRun : flag_only (endRun H).
Proof.
  assert (Loop : forall lastFailure disclaimer l,
             flag_only (endRun_failures_loop H lastFailure disclaimer l)).
  { intros lastFailure disclaimer l.
    induction l as [ | evt rest IH]; simpl; [ apply flag_only_ret | ].
    apply flag_only_bind; [ apply flag_only_writeFailure | intros _ ].
    apply flag_only_bind; [ flag_tac | intros _; exact IH ]. }
  assert (Known : forall that l, flag_only (endRun_knownFailures_loop H that l)).
  { intros that l.
    induction l as [ | evt rest IH]; simpl; [ apply flag_only_ret | ].
    apply flag_only_bind; [ flag_tac | intros _; exact IH ]. }
  unfold endRun. repeat first [ apply Loop | apply Known | progress flag_tac ].
Qed.

(** X8. [endRun] reads the run state and leaves it as it is, the
    blank-line flag apart, also when it throws; so, outside watch mode,
    where no line depends on the time of the call, when it returns normally
    a second call writes the same lines again. *)
Theorem endRun_can_be_repeated this :
  (exists b, exec (this_endRun H) this = set_lastLineIsEmpty b this)
  /\ (watching this = false ->
      Forall has_err (failures this) ->
      returns_normally (this_endRun H) this
      /\ written (this_endRun H) (exec (this_endRun H) this)
         = written (this_endRun H) this).
Proof.
  split.
  - unfold this_endRun. rewrite exec_whileCorked. apply flag_only_endRun.
  - intros _ F. destruct (this_endRun_emits H this F) as (W & N & X).
    split; [ exact N | ].
    rewrite X, W.
    destruct (this_endRun_emits H (set_lastLineIsEmpty true this) F) as (W' & _ & _).
    rewrite W'. reflexivity.
Qed.

Lemma countLines_leading_then_further this s :
  countLines H this s = leading_count_lines H this s ++ further_count_lines H this s.
Proof.
  unfold countLines, leading_count_lines, further_count_lines. cbv zeta.
  destruct (N.ltb_spec 0 (failedHooks s)) as [Hooks | NoHooks];
    destruct (N.ltb_spec 0 (failedTests s)) as [Tests | NoTests].
  - assert (Z : (failedHooks s =? 0) = false) by (apply N.eqb_neq; lia).
    rewrite Z, append_empty_r. reflexivity.
  - assert (Z : (failedHooks s =? 0) = false) by (apply N.eqb_neq; lia).
    rewrite Z. reflexivity.
  - assert (Z : (failedTests s =? 0) = false) by (apply N.eqb_neq; lia).
    rewrite Z, andb_false_r. reflexivity.
  - assert (Zh : (failedHooks s =? 0) = true) by (apply N.eqb_eq; lia).
    assert (Zt : (failedTests s =? 0) = true) by (apply N.eqb_eq; lia).
    rewrite Zh, Zt. cbn [andb].
    destruct (0 <? passedTests s); reflexivity.
Qed.

(** X9. Of the count lines about failed hooks, failed tests and passed
    tests, the passed line is written only when no hook and no test failed,
    and the watch-mode time stamp ends the first of the three lines that is
    written and no other line; when none of the three is written the time
    stamp is not written at all.  These lines and the count lines that
    follow them are all the count lines there are: what [endRun] writes is
    a blank line, the three lines as laid out here, the further count
    lines, none of which is stamped, and then the known-failures list, the
    failure section, the disclaimer and the last blank line. *)
Theorem endRun_leading_count_lines this s :
  countLines H this s = leading_count_lines H this s ++ further_count_lines H this s
  /\ (stats this = Some s ->
      (matching this && (selectedTests s =? 0)) = false ->
      Forall has_err (failures this) ->
      written (this_endRun H) this
      = map line
          ([""] ++ leading_count_lines H this s ++ further_count_lines H this s
           ++ knownFailuresSection H this s ++ failuresSection H this s
           ++ disclaimerSection H this s ++ [""])).
Proof.
  split; [ apply countLines_leading_then_further | ].
  intros S M F. destruct (this_endRun_emits H this F) as [W _]. rewrite W.
  unfold endRunLines. rewrite S, M, countLines_leading_then_further, <- !app_assoc.
  reflexivity.
Qed.

(** X10. [startRun] ends on a blank line and says so in the blank-line
    flag, so an uncaught exception or unhandled rejection that is the first
    event of the run starts with its title line, no blank line before it. *)
Theorem first_exception_of_a_run plan this0 evt file e :
  type evt = "uncaught-exception" \/ type evt = "unhandled-rejection" ->
  testFile evt = Some file -> err evt = Some e ->
  last (written (startRun H plan) this0) = Some (line "")
  /\ written (this_consumeStateChange H evt) (exec (startRun H plan) this0)
     = map line (exceptionLines H (exec (startRun H plan) this0) evt file e).
Proof.
  intros T F E. split.
  - unfold written, effects. rewrite startRun_runs. cbn [snd].
    unfold startRun_effects. rewrite !written_chunks_app, !last_app. reflexivity.
  - unfold this_consumeStateChange. rewrite written_whileCorked.
    rewrite (emits_written _ _ _ (emits_exception H evt file e _ T F E)).
    unfold exec. rewrite startRun_runs. reflexivity.
Qed.

(** X11. [ensureEmptyLine] is idempotent: it writes one blank line when
    the last line written through [writeLine] was not blank and nothing
    otherwise, leaves the flag on, and a second call right after the first
    writes nothing. *)
Theorem ensureEmptyLine_idempotent this :
  written ensureEmptyLine this = (if lastLineIsEmpty this then [] else [line ""])
  /\ lastLineIsEmpty (exec ensureEmptyLine this) = true
  /\ written ensureEmptyLine (exec ensureEmptyLine this) = []
  /\ ensureEmptyLine (exec ensureEmptyLine this)
     = (Normal tt, exec ensureEmptyLine this, []).
Proof.
  unfold written, effects, exec, ensureEmptyLine. rewrite !bind_get.
  destruct (lastLineIsEmpty this) eqn:L; simpl; rewrite ?bind_get; simpl; rewrite ?L;
    repeat split.
Qed.

(** X12. An [internal-error] event whose payload lacks its error has its
    heading line on the stream when the exception leaves
    [consumeStateChange]: the line is written, the stream is uncorked, and
    summary, stack and closing lines are not written. *)
Theorem internal_error_without_err_writes_heading evt this :
  type evt = "internal-error" -> err evt = None ->
  this_consumeStateChange H evt this
  = (Throw undefined_err,
     set_lastLineIsEmpty (String.eqb (internalErrorHeading H evt) "") this,
     [Cork; Write (line (internalErrorHeading H evt)); Uncork]).
Proof.
  intros T E. unfold this_consumeStateChange.
  apply (whileCorked_runs _ _ _ _ [_]).
  unfold consumeStateChange, internalErrorHeading, err_of. rewrite bind_get, T, E.
  destruct (testFile evt) as [file | ]; [ destruct (truthy file) | ]; reflexivity.
Qed.

End ErrorPaths.

Lemma failure_without_err_is_recorded_then_throws_witness :
  is_failure_event a_failure_without_err = true
  /\ err a_failure_without_err = None
  /\ failures a_run_with_a_failure_without_err = [a_failure_without_err]
  /\ completion (this_endRun plain) a_run_with_a_failure_without_err
     = Throw undefined_err.
Proof.
  split; [ reflexivity | split; [ reflexivity | split; [ vm_compute; reflexivity | ] ] ].
  destruct (failure_without_err_is_recorded_then_throws plain a_failure_without_err
              a_started_reporter eq_refl eq_refl) as [_ Later].
  apply (Later a_run_with_a_failure_without_err (a_snapshot 1 0 0 0 1 1)).
  - vm_compute. left. reflexivity.
  - vm_compute. reflexivity.
  - vm_compute. reflexivity.
Defined.

Lemma endRun_without_matching_tests_witness :
  matching a_run_matching_nothing = true
  /\ failures a_run_matching_nothing = [a_failure_without_err]
  /\ written (this_endRun plain) a_run_matching_nothing
     = [line "  ✖ Couldn't find any matching tests"; line ""].
Proof.
  split; [ vm_compute; reflexivity | split; [ vm_compute; reflexivity | ] ].
  unfold written, effects.
  erewrite (endRun_without_matching_tests plain a_run_matching_nothing);
    [ reflexivity | vm_compute; reflexivity | vm_compute; reflexivity | reflexivity ].
Defined.

Lemma endRun_can_be_repeated_witness :
  watching a_run_with_two_failures = false
  /\ Forall has_err (failures a_run_with_two_failures)
  /\ written (this_endRun plain) (exec (this_endRun plain) a_run_with_two_failures)
     = written (this_endRun plain) a_run_with_two_failures.
Proof.
  assert (Once : watching a_run_with_two_failures = false).
  { vm_compute. reflexivity. }
  assert (F : Forall has_err (failures a_run_with_two_failures)).
  { vm_compute. repeat constructor; discriminate. }
  split; [ exact Once | split; [ exact F | ] ].
  destruct (endRun_can_be_repeated plain a_run_with_two_failures) as [_ Again].
  apply (Again Once F).
Defined.

Lemma endRun_leading_count_lines_witness :
  stats a_run_with_two_failures = Some (a_snapshot 2 0 0 0 1 1)
  /\ Forall has_err (failures a_run_with_two_failures)
  /\ leading_count_lines plain a_run_with_two_failures (a_snapshot 2 0 0 0 1 1)
     = ["  2 tests failed"]
  /\ further_count_lines plain a_run_with_two_failures (a_snapshot 2 0 0 0 1 1) = []
  /\ written (this_endRun plain) a_run_with_two_failures
     = map line
         ([""; "  2 tests failed"; ""]
          ++ failureLines plain a_run_with_two_failures a_failed_test
          ++ [""; ""; ""]
          ++ failureLines plain a_run_with_two_failures another_failed_test
          ++ [""]).
Proof.
  assert (S : stats a_run_with_two_failures = Some (a_snapshot 2 0 0 0 1 1)).
  { vm_compute. reflexivity. }
  assert (M : (matching a_run_with_two_failures
               && (selectedTests (a_snapshot 2 0 0 0 1 1) =? 0)) = false).
  { vm_compute. reflexivity. }
  assert (F : Forall has_err (failures a_run_with_two_failures)).
  { vm_compute. repeat constructor; discriminate. }
  split; [ exact S | split; [ exact F | ] ].
  split; [ vm_compute; reflexivity | split; [ vm_compute; reflexivity | ] ].
  destruct (endRun_leading_count_lines plain a_run_with_two_failures
              (a_snapshot 2 0 0 0 1 1)) as [_ W].
  rewrite (W S M F). vm_compute. reflexivity.
Defined.

Lemma first_exception_of_a_run_witness :
  (type an_uncaught_exception = "uncaught-exception"
   \/ type an_uncaught_exception = "unhandled-rejection")
  /\ written (this_consumeStateChange plain an_uncaught_exception) a_started_reporter
     = [ line "  Uncaught exception in test.js"; line ""; line "";
         line "  boom"; line "";
         line ("  Error: boom" +:+ newline +:+ "      at test.js:3:1"); line "" ].
Proof.
  split; [ left; reflexivity | ].
  destruct (first_exception_of_a_run plain a_plan (constructor (Some 80) false)
              an_uncaught_exception "test.js" boom (or_introl eq_refl) eq_refl eq_refl)
    as [_ First].
  unfold a_started_reporter. rewrite First. vm_compute. reflexivity.
Defined.

Lemma internal_error_without_err_writes_heading_witness :
  type an_internal_error_without_err = "internal-error"
  /\ err an_internal_error_without_err = None
  /\ written (this_consumeStateChange plain an_internal_error_without_err)
       a_started_reporter
     = [line "  ✖ Internal error when running test.js"].
Proof.
  split; [ reflexivity | split; [ reflexivity | ] ].
  unfold written, effects.
  rewrite (internal_error_without_err_writes_heading plain an_internal_error_without_err
             a_started_reporter eq_refl eq_refl).
  reflexivity.
Defined.

(** ** Logs *)

Lemma substring_all (s : string) : String.substring 0 (String.length s) s = s.
Proof. induction s as [ | c s IH]; simpl; [ | rewrite IH ]; reflexivity. Qed.

Lemma replace_six_spaces rest by_ :
  replace_leading_six_spaces ("      " +:+ rest) by_ = by_ +:+ rest.
Proof.
  unfold replace_leading_six_spaces.
  change ("      " +:+ rest)
    with (String " " (String " " (String " " (String " " (String " " (String " " rest)))))).
  simpl. rewrite Nat.sub_0_r, substring_all. reflexivity.
Qed.

Section Logs.

Variable H : Helpers.

Lemma startsWith_split p s :
  startsWith p s = true -> exists rest, s = p +:+ rest.
Proof.
  revert s. induction p as [ | a p IH]; intros s E.
  - exists s. reflexivity.
  - destruct s as [ | b s]; [ discriminate E | ].
    simpl in E. apply andb_prop in E. destruct E as [Eab Es].
    apply Ascii.eqb_eq in Eab. subst b.
    destruct (IH s Es) as [rest ->]. exists rest. reflexivity.
Qed.

Lemma logLine_marked log :
  marked_log H log
    (replace_leading_six_spaces (indentString H (colors_log H log) 6)
       ("    " +:+ colors_information H (figures_info H) +:+ " ")).
Proof.
  unfold marked_log.
  destruct (startsWith "      " (indentString H (colors_log H log) 6)) eqn:E.
  - left. destruct (startsWith_split _ _ E) as [rest R]. exists rest.
    split; [ exact R | ]. rewrite R, replace_six_spaces, !append_assoc. reflexivity.
  - right. split; [ reflexivity | ].
    unfold replace_leading_six_spaces. rewrite E. reflexivity.
Qed.

(** X13. [writeLogs] writes nothing for an event without logs and
    otherwise one line per log entry, in the order of the entries and
    through [writeLine], each entry on its own account: where the indented
    entry starts with its six spaces, the line is the entry with those six
    characters replaced by four spaces, the information figure and a space,
    once, so that the later lines of an entry of several lines keep their
    indentation; an entry whose indented form does not start with six
    spaces (an empty entry, which [indentString] leaves empty) is written
    as it is, without figure. *)
Theorem writeLogs_marks_first_line evt this :
  (logs evt = None -> writeLogs H evt this = (Normal tt, this, []))
  /\ (forall entries,
        logs evt = Some entries ->
        exists lines,
          writeLogs H evt this
          = (Normal tt, after_lines lines this, map (fun l => Write (line l)) lines)
          /\ Forall2 (marked_log H) entries lines).
Proof.
  split.
  - intros N. unfold writeLogs. rewrite N. reflexivity.
  - intros entries L. exists (logLines H evt).
    split; [ apply emits_writeLogs | ].
    unfold logLines. rewrite L. clear L.
    induction entries as [ | log entries IH]; [ constructor | ].
    cbn [map]. constructor; [ apply logLine_marked | exact IH ].
Qed.

End Logs.

Lemma writeLogs_marks_first_line_witness :
  logs a_passed_test_with_logs = Some ["first"; ""; "second" +:+ newline +:+ "third"]
  /\ written (writeLogs plain a_passed_test_with_logs) a_started_reporter
     = [ line "    ℹ first"; line "";
         line ("    ℹ second" +:+ newline +:+ "      third") ].
Proof.
  split; [ reflexivity | ].
  destruct (writeLogs_marks_first_line plain a_passed_test_with_logs a_started_reporter)
    as (_ & Marked).
  destruct (Marked ["first"; ""; "second" +:+ newline +:+ "third"] eq_refl)
    as (lines & W & Each).
  unfold written, effects. rewrite W. cbn [snd].
  inversion Each as [ | ? l1 ? more1 M1 Each1 ]; subst.
  inversion Each1 as [ | ? l2 ? more2 M2 Each2 ]; subst.
  inversion Each2 as [ | ? l3 ? more3 M3 Each3 ]; subst.
  inversion Each3; subst.
  assert (E1 : l1 = "    ℹ first").
  { destruct M1 as [(rest & R & ->) | [No _]]; [ | discriminate No ].
    vm_compute in R. injection R as <-. reflexivity. }
  assert (E2 : l2 = "").
  { destruct M2 as [(rest & R & _) | [_ ->]]; [ discriminate R | reflexivity ]. }
  assert (E3 : l3 = "    ℹ second" +:+ newline +:+ "      third").
  { destruct M3 as [(rest & R & ->) | [No _]]; [ | discriminate No ].
    vm_compute in R. injection R as <-. reflexivity. }
  rewrite E1, E2, E3. reflexivity.
Defined.

(** ** The stream of the tests *)

Lemma fold_right_append_app (l1 l2 : list string) :
  fold_right String.append "" (l1 ++ l2)
  = fold_right String.append "" l1 +:+ fold_right String.append "" l2.
Proof.
  induction l1 as [ | x l1 IH]; [ reflexivity | ].
  cbn [app fold_right]. rewrite IH, append_assoc. reflexivity.
Qed.

Lemma seven_bit_append a b :
  seven_bit (a +:+ b) = seven_bit a && seven_bit b.
Proof.
  induction a as [ | c a IH]; [ reflexivity | ].
  rewrite append_cons. cbn [seven_bit]. rewrite IH, andb_assoc. reflexivity.
Qed.

Lemma TTYStream_writev_single chunk s :
  TTYStream._writev [chunk] s = TTYStream._write chunk s.
Proof.
  unfold TTYStream._writev, TTYStream._write, TTYStream.push.
  cbn [TTYStream.chunks TTYStream.sanitizers TTYStream.isTTY TTYStream.columns map].
  rewrite <- app_assoc. reflexivity.
Qed.

Lemma TTYStream_read_batch batch s :
  TTYStream.asBuffer (TTYStream._writev batch s)
  = TTYStream.asBuffer s
    +:+ fold_right String.append "" (map (TTYStream.sanitized s) batch)
    +:+ TTYStream.SEPARATOR.
Proof.
  unfold TTYStream.asBuffer, TTYStream._writev, TTYStream.push.
  cbn [TTYStream.chunks TTYStream.sanitizers]. rewrite !fold_right_append_app.
  cbn [fold_right]. rewrite append_empty_r, append_assoc. reflexivity.
Qed.

(** X14. On a [TTYStream] a batch of one chunk is stored as the plain write
    of that chunk is.  For chunks of seven-bit characters, which the utf8
    decoding and encoding of the two methods leave as they are: what
    [asBuffer] gives after a batch is what it gave before, then the chunks
    each run through the sanitizers, then one separator; and on a stream
    without sanitizers a batch reads back as one write of the chunks
    joined. *)
Theorem TTYStream_batch_as_one_write :
  (forall chunk s, TTYStream._writev [chunk] s = TTYStream._write chunk s)
  /\ (forall batch s,
        Forall (fun chunk => seven_bit chunk = true) batch ->
        TTYStream.asBuffer (TTYStream._writev batch s)
        = TTYStream.asBuffer s
          +:+ fold_right String.append ""
                (map (TTYStream.sanitized s) batch)
          +:+ TTYStream.SEPARATOR)
  /\ (forall batch s,
        Forall (fun chunk => seven_bit chunk = true) batch ->
        TTYStream.sanitizers s = [] ->
        seven_bit (fold_right String.append "" batch) = true
        /\ TTYStream.asBuffer (TTYStream._writev batch s)
           = TTYStream.asBuffer
               (TTYStream._write (fold_right String.append "" batch) s)).
Proof.
  split; [ exact TTYStream_writev_single | split ].
  - intros batch s _. apply TTYStream_read_batch.
  - intros batch s Seven None. split.
    + induction Seven as [ | chunk batch Sc Seven IH]; [ reflexivity | ].
      cbn [fold_right]. rewrite seven_bit_append, Sc, IH. reflexivity.
    + rewrite TTYStream_read_batch.
      unfold TTYStream.asBuffer, TTYStream._write, TTYStream.push, TTYStream.sanitized.
      cbn [TTYStream.chunks]. rewrite None, fold_right_append_app.
      cbn [fold_left fold_right]. rewrite append_empty_r.
      replace (map (fun chunk : string => chunk) batch) with batch
        by (symmetry; apply map_id).
      reflexivity.
Qed.

Lemma TTYStream_batch_as_one_write_witness :
  Forall (fun chunk => seven_bit chunk = true) ["a"; "b"]
  /\ TTYStream.sanitizers a_plain_stream = []
  /\ TTYStream.asBuffer (TTYStream._writev ["a"; "b"] a_plain_stream)
     = "ab---tty-stream-chunk-separator" +:+ newline.
Proof.
  assert (Seven : Forall (fun chunk => seven_bit chunk = true) ["a"; "b"]).
  { repeat constructor. }
  split; [ exact Seven | split; [ reflexivity | ] ].
  destruct TTYStream_batch_as_one_write as (_ & _ & Joined).
  destruct (Joined ["a"; "b"] a_plain_stream Seven eq_refl) as [_ ->]. reflexivity.
Defined.

Lemma Writable_run_app tr1 tr2 w :
  Writable_run (tr1 ++ tr2) w = Writable_run tr2 (Writable_run tr1 w).
Proof. apply fold_left_app. Qed.

Lemma Writable_run_corked_writes batch n held s :
  Writable_run (map Write batch) {| corked := S n; buffered := held; sink := s |}
  = {| corked := S n; buffered := held ++ batch; sink := s |}.
Proof.
  revert held. induction batch as [ | chunk batch IH]; intros held; simpl.
  - rewrite app_nil_r. reflexivity.
  - unfold Writable_run in IH. rewrite IH, <- app_assoc. reflexivity.
Qed.

Lemma Writable_run_corked_call batch s :
  Writable_run ([Cork] ++ map Write batch ++ [Uncork]) (idle s)
  = idle (after_corked_call batch s).
Proof.
  rewrite !Writable_run_app.
  cbn [Writable_run fold_left Writable_step idle corked buffered sink].
  rewrite Writable_run_corked_writes. cbn [app].
  cbn [Writable_run fold_left Writable_step corked buffered sink].
  destruct batch as [ | chunk [ | more batch]]; try reflexivity.
  unfold after_corked_call. rewrite TTYStream_writev_single. reflexivity.
Qed.

Lemma Writable_run_plain_writes batch s :
  Writable_run (map Write batch) (idle s)
  = idle (fold_left (fun s chunk => TTYStream._write chunk s) batch s).
Proof.
  revert s. induction batch as [ | chunk batch IH]; intros s; [ reflexivity | ].
  simpl. apply IH.
Qed.

Section OnTheStream.

Variable H : Helpers.

(** X15. Through Node's [Writable], what one call of the corked
    [consumeStateChange] or [endRun] writes reaches a [TTYStream] as one
    batch, so the stream stores its chunks followed by a single separator
    (and nothing when the call wrote nothing), also when the call throws;
    the lines of [startRun], which is not corked, arrive one write at a
    time, each followed by its own separator. *)
Theorem corked_call_is_one_batch evt plan this s :
  Writable_run (effects (this_consumeStateChange H evt) this) (idle s)
  = idle (after_corked_call (written (this_consumeStateChange H evt) this) s)
  /\ Writable_run (effects (this_endRun H) this) (idle s)
     = idle (after_corked_call (written (this_endRun H) this) s)
  /\ Writable_run (effects (startRun H plan) this) (idle s)
     = idle (fold_left (fun s chunk => TTYStream._write chunk s)
               (written (startRun H plan) this) s).
Proof.
  split; [ | split ].
  - unfold this_consumeStateChange.
    rewrite written_whileCorked, effects_whileCorked, writes_only_consumeStateChange.
    apply (Writable_run_corked_call _ s).
  - unfold this_endRun.
    rewrite written_whileCorked, effects_whileCorked, writes_only_endRun.
    apply (Writable_run_corked_call _ s).
  - unfold written, effects. rewrite startRun_runs. cbn [snd].
    unfold startRun_effects.
    destruct (removePreviousListener this), (watching this && (1 <? plan_runVector plan));
      reflexivity.
Qed.

End OnTheStream.

(** ** One run after another *)

Section ConsecutiveRuns.

Variable H : Helpers.

(** [startRun] on an object that still has the configuration an earlier
    [startRun] gave it. *)
Lemma startRun_after_a_run plan next this later :
  same_configuration later (exec (startRun H plan) this) ->
  effects (startRun H next) later
  = [Unsubscribe (plan_status plan); Subscribe (plan_status next)]
    ++ (if watching this && (1 <? plan_runVector next)
        then [Write (line (chalk_gray_dim H
                             (repeat_string "─" (N.to_nat (columns_or_80 this)))))]
        else [])
    ++ [Write (line "")].
Proof.
  unfold exec at 1. rewrite startRun_runs. cbn [fst snd].
  intros (Cols & Watch & _ & _ & _ & _ & Listener).
  unfold effects. rewrite startRun_runs. cbn [snd].
  unfold startRun_effects, columns_or_80. rewrite Cols, Watch, Listener. reflexivity.
Qed.

(** C5. [startRun] first calls [reset], which puts every member of the run
    state back to its empty form; it unsubscribes the listener the object
    holds before it subscribes the new one, and keeps the handle of the new
    one in the object; so, whatever events run N delivered and whether or
    not its [endRun] was called, the [startRun] of run N+1 unsubscribes the
    listener of run N and then subscribes its own.  The object [startRun]
    leaves is the one it leaves on a reporter fresh from the constructor,
    so that whatever events follow, [endRun] does and writes what it would
    had no earlier run taken place. *)
Theorem startRun_supersedes_previous_run plan this :
  exec reset this
  = {| stream_columns := stream_columns this; watching := watching this;
       failFastEnabled := false; failures := [];
       filesWithMissingAvaImports := ∅; knownFailures := [];
       lastLineIsEmpty := false; matching := false;
       prefixTitle := fun testFile title => title; previousFailures := 0;
       removePreviousListener := None; stats := None |}
  /\ effects (startRun H plan) this
     = match removePreviousListener this with
       | Some previous => [Unsubscribe previous]
       | None => []
       end
       ++ [Subscribe (plan_status plan)]
       ++ (if watching this && (1 <? plan_runVector plan)
           then [Write (line (chalk_gray_dim H
                                (repeat_string "─" (N.to_nat (columns_or_80 this)))))]
           else [])
       ++ [Write (line "")]
  /\ removePreviousListener (exec (startRun H plan) this) = Some (plan_status plan)
  /\ (forall evts next,
        effects (startRun H next) (deliver H evts (exec (startRun H plan) this))
        = [Unsubscribe (plan_status plan); Subscribe (plan_status next)]
          ++ (if watching this && (1 <? plan_runVector next)
              then [Write (line (chalk_gray_dim H
                                   (repeat_string "─" (N.to_nat (columns_or_80 this)))))]
              else [])
          ++ [Write (line "")])
  /\ (forall evts next,
        effects (startRun H next)
          (exec (this_endRun H) (deliver H evts (exec (startRun H plan) this)))
        = [Unsubscribe (plan_status plan); Subscribe (plan_status next)]
          ++ (if watching this && (1 <? plan_runVector next)
              then [Write (line (chalk_gray_dim H
                                   (repeat_string "─" (N.to_nat (columns_or_80 this)))))]
              else [])
          ++ [Write (line "")])
  /\ exec (startRun H plan) this
     = exec (startRun H plan) (constructor (stream_columns this) (watching this))
  /\ forall evts,
       this_endRun H (deliver H evts (exec (startRun H plan) this))
       = this_endRun H
           (deliver H evts
              (exec (startRun H plan)
                 (constructor (stream_columns this) (watching this)))).
Proof.
  assert (Same : exec (startRun H plan) this
                 = exec (startRun H plan)
                     (constructor (stream_columns this) (watching this))).
  { unfold exec. rewrite !startRun_runs. reflexivity. }
  split; [ apply reset_runs | ].
  split; [ unfold effects; rewrite startRun_runs; reflexivity | ].
  split; [ unfold exec; rewrite startRun_runs; reflexivity | ].
  split; [ | split; [ | split; [ exact Same | ] ] ].
  - intros evts next. apply startRun_after_a_run, configuration_deliver.
  - intros evts next. apply startRun_after_a_run.
    pose proof (configuration_deliver H evts (exec (startRun H plan) this)) as C.
    unfold this_endRun. rewrite exec_whileCorked.
    destruct (flag_only_endRun H (deliver H evts (exec (startRun H plan) this))) as [b ->].
    exact C.
  - intros evts. rewrite <- Same. reflexivity.
Qed.

End ConsecutiveRuns.
